(** * vscode_progress: the progress callback plugin

    A shallow embedding of [resources/callback_plugins/vscode_progress.py]
    (class [CallbackModule]) and the proofs of its specification.

    Python values are an inductive type; the plugin object is a record that
    the hooks thread through explicitly; exceptions are a result type; the
    clock, the timestamp and the behaviour of the socket are inputs of each
    hook invocation. *)

From Stdlib Require Import ZArith QArith String Ascii List Bool Lia.
From Stdlib Require Import DecimalString DecimalFacts DecimalPos.
From stdpp Require Import base decidable option list strings gmap.

Set Warnings "-register-all".

Close Scope Q_scope.
Open Scope string_scope.
Open Scope list_scope.
Open Scope Z_scope.

(** ** Python values *)

Module Py.

(** A [float]: a finite value, kept as an exact rational (the rounding of
    binary arithmetic is left out), or one of the non-finite values. *)
Inductive pyfloat : Type :=
| FFinite (q : Q)
| FNaN
| FInf (negative : bool).

(** Dictionary keys: strings, integers, floats, booleans, [None], and tuples
    of integers.  Python holds equal keys of different types ([1], [1.0] and
    [True]) for one key; a mapping is taken to hold at most one of them, so
    that equal keys are identical ones. *)
Inductive pykey : Type :=
| KStr (s : string)
| KInt (z : Z)
| KFloat (f : pyfloat)
| KBool (b : bool)
| KNone
| KTuple (items : list Z).

(** Any other object (a host-engine object): what [str] and [repr] give. *)
Record pyobj : Type := { obj_str : string; obj_repr : string }.

Inductive pyval : Type :=
| PNone
| PBool (b : bool)
| PInt (z : Z)
| PFloat (f : pyfloat)
| PStr (s : string)
| PList (items : list pyval)
| PDict (items : list (pykey * pyval))
| PObj (o : pyobj).

(** A [dict] keeps insertion order; every key occurs once. *)
Abbreviation pydict := (list (pykey * pyval)).

#[global] Instance Q_eq_dec : EqDecision Q.
Proof. solve_decision. Defined.

#[global] Instance pyfloat_eq_dec : EqDecision pyfloat.
Proof. solve_decision. Defined.

#[global] Instance pykey_eq_dec : EqDecision pykey.
Proof. solve_decision. Defined.

Definition dict_keys (d : pydict) : list pykey := map fst d.

(** [d.get(key)] / [key in d] *)
Fixpoint dict_get (key : pykey) (d : pydict) : option pyval :=
  match d with
  | [] => None
  | (k, v) :: rest => if decide (k = key) then Some v else dict_get key rest
  end.

(** [d.get(key, default)] *)
Definition dict_get_default (key : pykey) (default : pyval) (d : pydict) : pyval :=
  match dict_get key d with
  | Some v => v
  | None => default
  end.

(** [d[key] = value]: in place when the key is there, appended otherwise. *)
Fixpoint dict_setitem (d : pydict) (key : pykey) (value : pyval) : pydict :=
  match d with
  | [] => [(key, value)]
  | (k, v) :: rest =>
      if decide (k = key) then (k, value) :: rest
      else (k, v) :: dict_setitem rest key value
  end.

(** *** Text *)

Definition LF : ascii := ascii_of_nat 10.

Definition DQUOTE : ascii := ascii_of_nat 34.

Definition SQUOTE : ascii := ascii_of_nat 39.

(** [len(s)] *)
Definition py_len (s : string) : Z := Z.of_nat (String.length s).

(** [s[:n]] for [0 <= n] *)
Definition py_slice_to (n : Z) (s : string) : string :=
  substring 0 (Z.to_nat n) s.

(** [sep.join(parts)] *)
Fixpoint join (sep : string) (parts : list string) : string :=
  match parts with
  | [] => ""
  | [p] => p
  | p :: rest => p +:+ sep +:+ join sep rest
  end.

(** [str(z)] of an [int] *)
Definition int_str (z : Z) : string := NilZero.string_of_int (Z.to_int z).

Definition hex_digit (n : N) : ascii :=
  if (n <? 10)%N then ascii_of_N (48 + n) else ascii_of_N (87 + n).

(** The two lowercase hexadecimal digits of a character code. *)
Definition hex2 (c : ascii) : string :=
  let n := N_of_ascii c in
  String (hex_digit (n / 16)) (String (hex_digit (n mod 16)) "").

Fixpoint contains (c : ascii) (s : string) : bool :=
  match s with
  | EmptyString => false
  | String a rest => if Ascii.eqb a c then true else contains c rest
  end.

(** Characters are code points below 256.  [str.isprintable] on them. *)
Definition printable (c : ascii) : bool :=
  let n := N_of_ascii c in
  ((32 <=? n) && (n <? 127) || (161 <=? n) && negb (n =? 173))%N.

Definition repr_char (quote : ascii) (c : ascii) : string :=
  if Ascii.eqb c quote || Ascii.eqb c "\" then String "\" (String c "")
  else if Ascii.eqb c "009" then "\t"
  else if Ascii.eqb c "010" then "\n"
  else if Ascii.eqb c "013" then "\r"
  else if printable c then String c ""
  else "\x" +:+ hex2 c.

Fixpoint repr_chars (quote : ascii) (s : string) : string :=
  match s with
  | EmptyString => ""
  | String c rest => repr_char quote c +:+ repr_chars quote rest
  end.

(** [repr(s)] of a [str] *)
Definition str_repr (s : string) : string :=
  let quote : ascii :=
    if contains SQUOTE s && negb (contains DQUOTE s) then DQUOTE else SQUOTE in
  String quote (repr_chars quote s +:+ String quote "").

Definition tuple_repr (items : list Z) : string :=
  match items with
  | [z] => "(" +:+ int_str z +:+ ",)"
  | _ => "(" +:+ join ", " (map int_str items) +:+ ")"
  end.

Section Text.

(** [float.__repr__] on finite values: the shortest decimal that reads
    back as the same double.  It is taken as given. *)
Variable float_repr : Q -> string.

Definition pyfloat_repr (f : pyfloat) : string :=
  match f with
  | FFinite q => float_repr q
  | FNaN => "nan"
  | FInf false => "inf"
  | FInf true => "-inf"
  end.

Definition key_repr (k : pykey) : string :=
  match k with
  | KStr s => str_repr s
  | KInt z => int_str z
  | KFloat f => pyfloat_repr f
  | KBool true => "True"
  | KBool false => "False"
  | KNone => "None"
  | KTuple items => tuple_repr items
  end.

(** [repr(v)] *)
Fixpoint py_repr (v : pyval) : string :=
  match v with
  | PNone => "None"
  | PBool true => "True"
  | PBool false => "False"
  | PInt z => int_str z
  | PFloat f => pyfloat_repr f
  | PStr s => str_repr s
  | PList items => "[" +:+ join ", " (map py_repr items) +:+ "]"
  | PDict items =>
      "{" +:+ join ", "
               (map (fun kv : pykey * pyval =>
                       let '(k, x) := kv in key_repr k +:+ ": " +:+ py_repr x)
                    items) +:+ "}"
  | PObj o => obj_repr o
  end.

(** [str(v)] *)
Definition py_str (v : pyval) : string :=
  match v with
  | PStr s => s
  | PObj o => obj_str o
  | _ => py_repr v
  end.

End Text.

(** Truth value of an object, as [if v:] tests it. *)
Definition truthy (v : pyval) : bool :=
  match v with
  | PNone => false
  | PBool b => b
  | PInt z => negb (z =? 0)%Z
  | PFloat (FFinite q) => negb (Qnum q =? 0)%Z
  | PFloat _ => true
  | PStr s => negb (String.eqb s "")
  | PList items => match items with [] => false | _ => true end
  | PDict items => match items with [] => false | _ => true end
  | PObj _ => true
  end.

Definition isinstance_str (v : pyval) : bool :=
  match v with PStr _ => true | _ => false end.

(** The text of a [str] object. *)
Definition str_value (v : pyval) : string :=
  match v with PStr s => s | _ => "" end.

Definition isinstance_dict (v : pyval) : bool :=
  match v with PDict _ => true | _ => false end.

Definition isinstance_list (v : pyval) : bool :=
  match v with PList _ => true | _ => false end.

End Py.

(** ** JSON encoding: [json.dumps(obj, default=str)] *)

Module Json.
Import Py.

(** Exceptions the plugin meets.  [OSError] carries the failure of a socket
    operation. *)
Inductive socket_error : Type :=
| EPIPE | ECONNRESET | ETIMEDOUT | ENOTCONN | ECONNREFUSED | ENOENT.

Inductive exception : Type :=
| TypeError (msg : string)
| OSError (errno : socket_error).

Inductive outcome (A : Type) : Type :=
| Returns (a : A)
| Raises (e : exception).
Arguments Returns {A} a.
Arguments Raises {A} e.

(** Every class above derives from [Exception]. *)
Definition isinstance_Exception (e : exception) : bool :=
  match e with
  | TypeError _ => true
  | OSError _ => true
  end.

(** ['\\u{0:04x}'.format(n)] for a code point below 256 *)
Definition u_escape (c : ascii) : string := "\u00" +:+ hex2 c.

(** One character of [py_encode_basestring_ascii]. *)
Definition json_char (c : ascii) : string :=
  if Ascii.eqb c "\" then "\\"
  else if Ascii.eqb c DQUOTE then String "\" (String DQUOTE "")
  else if Ascii.eqb c "008" then "\b"
  else if Ascii.eqb c "012" then "\f"
  else if Ascii.eqb c "010" then "\n"
  else if Ascii.eqb c "013" then "\r"
  else if Ascii.eqb c "009" then "\t"
  else if ((32 <=? N_of_ascii c) && (N_of_ascii c <=? 126))%N then String c ""
  else u_escape c.

Fixpoint json_chars (s : string) : string :=
  match s with
  | EmptyString => ""
  | String c rest => json_char c +:+ json_chars rest
  end.

Definition json_string (s : string) : string :=
  String DQUOTE (json_chars s +:+ String DQUOTE "").

(** The text of an object, of an array, and of one member of an object whose
    key is a string. *)
Definition json_object (members : list string) : string :=
  "{" +:+ join ", " members +:+ "}".

Definition json_array (elements : list string) : string :=
  "[" +:+ join ", " elements +:+ "]".

Definition json_member (key value : string) : string :=
  json_string key +:+ ": " +:+ value.

(** The results of a run of computations, up to the first that raises. *)
Fixpoint sequence {A : Type} (l : list (outcome A)) : outcome (list A) :=
  match l with
  | [] => Returns []
  | Raises e :: _ => Raises e
  | Returns a :: rest =>
      match sequence rest with
      | Raises e => Raises e
      | Returns r => Returns (a :: r)
      end
  end.

Section Encoder.

Variable float_repr : Q -> string.

(** [allow_nan] is on: the non-finite values are written out. *)
Definition json_float (f : pyfloat) : string :=
  match f with
  | FFinite q => float_repr q
  | FNaN => "NaN"
  | FInf false => "Infinity"
  | FInf true => "-Infinity"
  end.

(** A key of a mapping: a [str] as it is; a [float], a [bool], [None] and
    an [int] as the string of their JSON text; a key of any other type is
    refused ([skipkeys] is off and [default] is not consulted). *)
Definition json_key (k : pykey) : outcome string :=
  match k with
  | KStr s => Returns (json_string s)
  | KFloat f => Returns (json_string (json_float f))
  | KBool true => Returns (json_string "true")
  | KBool false => Returns (json_string "false")
  | KNone => Returns (json_string "null")
  | KInt z => Returns (json_string (int_str z))
  | KTuple _ =>
      Raises (TypeError "keys must be str, int, float, bool or None, not tuple")
  end.

Fixpoint json_encode (v : pyval) : outcome string :=
  match v with
  | PNone => Returns "null"
  | PBool true => Returns "true"
  | PBool false => Returns "false"
  | PInt z => Returns (int_str z)
  | PFloat f => Returns (json_float f)
  | PStr s => Returns (json_string s)
  | PList items =>
      match sequence (map json_encode items) with
      | Raises e => Raises e
      | Returns parts => Returns (json_array parts)
      end
  | PDict items =>
      match sequence
              (map (fun kv : pykey * pyval =>
                      let '(k, x) := kv in
                      match json_key k with
                      | Raises e => Raises e
                      | Returns ks =>
                          match json_encode x with
                          | Raises e => Raises e
                          | Returns s => Returns (ks +:+ ": " +:+ s)
                          end
                      end) items) with
      | Raises e => Raises e
      | Returns parts => Returns (json_object parts)
      end
  | PObj o => Returns (json_string (obj_str o))
  end.

(** [json.dumps(obj, default=str)] *)
Definition json_dumps (obj : pyval) : outcome string := json_encode obj.

End Encoder.

End Json.

(** ** JSON texts (RFC 8259)

    The grammar of the texts a JSON parser accepts, with insignificant
    white space admitted after the separators, where the encoder puts it. *)

Module JsonText.
Import Py Json.

Fixpoint all_chars (p : ascii -> bool) (s : string) : bool :=
  match s with
  | EmptyString => true
  | String c rest => p c && all_chars p rest
  end.

Definition is_digit (c : ascii) : bool :=
  ((48 <=? N_of_ascii c) && (N_of_ascii c <=? 57))%N.

Definition is_hex_digit (c : ascii) : bool :=
  is_digit c
  || ((97 <=? N_of_ascii c) && (N_of_ascii c <=? 102))%N
  || ((65 <=? N_of_ascii c) && (N_of_ascii c <=? 70))%N.

(** space, horizontal tab, line feed, carriage return *)
Definition is_ws (c : ascii) : bool :=
  let n := N_of_ascii c in ((n =? 32) || (n =? 9) || (n =? 10) || (n =? 13))%N.

(** A character that stands for itself in a string: any but the quotation
    mark, the reverse solidus and the control characters. *)
Definition is_unescaped (c : ascii) : bool :=
  let n := N_of_ascii c in ((32 <=? n) && negb (n =? 34) && negb (n =? 92))%N.

(** The letter of a two-character escape: quotation mark, reverse solidus,
    solidus, or one of b f n r t. *)
Definition is_escape_letter (c : ascii) : bool :=
  let n := N_of_ascii c in
  ((n =? 34) || (n =? 92) || (n =? 47) || (n =? 98) || (n =? 102)
   || (n =? 110) || (n =? 114) || (n =? 116))%N.

(** The characters a number is made of. *)
Definition is_number_char (c : ascii) : bool :=
  let n := N_of_ascii c in
  (is_digit c || (n =? 45) || (n =? 43) || (n =? 46) || (n =? 101) || (n =? 69))%N.

(** [1*DIGIT] *)
Definition digits (s : string) : Prop :=
  s <> "" /\ all_chars is_digit s = true.

(** [int = zero / ( digit1-9 *DIGIT )] *)
Definition json_int (s : string) : Prop :=
  s = "0" \/
  exists (c : ascii) (rest : string),
    s = String c rest /\ is_digit c = true /\ c <> "0"%char /\
    all_chars is_digit rest = true.

(** [frac = decimal-point 1*DIGIT], optional *)
Definition json_frac (s : string) : Prop :=
  s = "" \/ exists ds : string, digits ds /\ s = "." +:+ ds.

(** [exp = e [ minus / plus ] 1*DIGIT], optional *)
Definition json_exp (s : string) : Prop :=
  s = "" \/
  exists e sign ds : string,
    (e = "e" \/ e = "E") /\ (sign = "" \/ sign = "+" \/ sign = "-") /\
    digits ds /\ s = e +:+ sign +:+ ds.

(** [number = [ minus ] int [ frac ] [ exp ]] *)
Definition json_number (s : string) : Prop :=
  exists minus int frac exp : string,
    (minus = "" \/ minus = "-") /\ json_int int /\ json_frac frac /\
    json_exp exp /\ s = minus +:+ int +:+ frac +:+ exp.

(** The characters between the quotation marks of a string. *)
Inductive json_string_body : string -> Prop :=
| body_empty : json_string_body ""
| body_unescaped (c : ascii) (rest : string) :
    is_unescaped c = true -> json_string_body rest ->
    json_string_body (String c rest)
| body_escape (c : ascii) (rest : string) :
    is_escape_letter c = true -> json_string_body rest ->
    json_string_body (String "\" (String c rest))
| body_unicode (h1 h2 h3 h4 : ascii) (rest : string) :
    is_hex_digit h1 = true -> is_hex_digit h2 = true ->
    is_hex_digit h3 = true -> is_hex_digit h4 = true ->
    json_string_body rest ->
    json_string_body
      (String "\" (String "u" (String h1 (String h2 (String h3 (String h4 rest)))))).

Definition quoted (body : string) : string :=
  String DQUOTE (body +:+ String DQUOTE "").

Definition json_ws (s : string) : Prop := all_chars is_ws s = true.

Inductive json_value : string -> Prop :=
| value_null : json_value "null"
| value_true : json_value "true"
| value_false : json_value "false"
| value_number (s : string) : json_number s -> json_value s
| value_string (body : string) : json_string_body body -> json_value (quoted body)
| value_empty_array : json_value "[]"
| value_array (elements : string) :
    json_elements elements -> json_value ("[" +:+ elements +:+ "]")
| value_empty_object : json_value "{}"
| value_object (members : string) :
    json_members members -> json_value ("{" +:+ members +:+ "}")
with json_elements : string -> Prop :=
| elements_last (v : string) : json_value v -> json_elements v
| elements_more (v ws rest : string) :
    json_value v -> json_ws ws -> json_elements rest ->
    json_elements (v +:+ "," +:+ ws +:+ rest)
with json_members : string -> Prop :=
| members_last (key ws v : string) :
    json_string_body key -> json_ws ws -> json_value v ->
    json_members (quoted key +:+ ":" +:+ ws +:+ v)
| members_more (key ws v ws' rest : string) :
    json_string_body key -> json_ws ws -> json_value v -> json_ws ws' ->
    json_members rest ->
    json_members (quoted key +:+ ":" +:+ ws +:+ v +:+ "," +:+ ws' +:+ rest).

(** One member as the encoder writes it: the key, a colon, a space, the
    value. *)
Definition json_member_text (m : string) : Prop :=
  exists key v : string,
    json_string_body key /\ json_value v /\ m = quoted key +:+ ": " +:+ v.

(** A text whose top-level value is an object. *)
Definition json_object_text (s : string) : Prop :=
  json_value s /\ exists rest, s = String "{" rest.

(** A printable character of ASCII: space to tilde. *)
Definition is_printable_ascii (c : ascii) : bool :=
  ((32 <=? N_of_ascii c) && (N_of_ascii c <=? 126))%N.

(** A message that is one line: a text without line feed, then one line
    feed. *)
Definition is_line (m : string) : Prop :=
  exists text : string, m = text +:+ String LF "" /\ contains LF text = false.

(** A message of printable ASCII closed by one line feed. *)
Definition is_ascii_line (m : string) : Prop :=
  exists text : string,
    m = text +:+ String LF "" /\ all_chars is_printable_ascii text = true.

(** *** A scan of the characters outside the strings

    A JSON text has, outside its strings, only the structural characters,
    white space, the characters of numbers and the letters of [true],
    [false] and [null]. *)

Inductive scan_state : Type := Outside | InString | Escaped.

(** The braces, the brackets, the comma and the colon. *)
Definition is_structural (c : ascii) : bool :=
  let n := N_of_ascii c in
  ((n =? 123) || (n =? 125) || (n =? 91) || (n =? 93) || (n =? 44)
   || (n =? 58))%N.

(** A letter of [true], [false] or [null]. *)
Definition is_literal_letter (c : ascii) : bool :=
  let n := N_of_ascii c in
  ((n =? 116) || (n =? 114) || (n =? 117) || (n =? 101) || (n =? 102)
   || (n =? 97) || (n =? 108) || (n =? 115) || (n =? 110))%N.

Definition is_outside_char (c : ascii) : bool :=
  is_structural c || is_ws c || is_number_char c || is_literal_letter c.

Definition scan_char (st : scan_state) (c : ascii) : option scan_state :=
  match st with
  | Outside =>
      if Ascii.eqb c DQUOTE then Some InString
      else if is_outside_char c then Some Outside
      else None
  | InString =>
      if Ascii.eqb c DQUOTE then Some Outside
      else if Ascii.eqb c "\" then Some Escaped
      else Some InString
  | Escaped => Some InString
  end.

(** The state after the text, or [None] when a character that no JSON text
    has outside a string is met. *)
Fixpoint scan (st : scan_state) (s : string) : option scan_state :=
  match s with
  | EmptyString => Some st
  | String c rest =>
      match scan_char st c with
      | Some st' => scan st' rest
      | None => None
      end
  end.

(** No float of the value is NaN or an infinity. *)
Fixpoint finite_floats (v : pyval) : bool :=
  match v with
  | PFloat (FFinite _) => true
  | PFloat _ => false
  | PList items => forallb finite_floats items
  | PDict items =>
      forallb (fun kv : pykey * pyval => let '(_, x) := kv in finite_floats x)
              items
  | _ => true
  end.

(** A key the encoder accepts: [str], [int], [float], [bool] or [None]. *)
Definition basic_key (k : pykey) : bool :=
  match k with
  | KTuple _ => false
  | _ => true
  end.

(** Every key of every mapping of the value is one the encoder accepts. *)
Fixpoint basic_keys (v : pyval) : bool :=
  match v with
  | PList items => forallb basic_keys items
  | PDict items =>
      forallb (fun kv : pykey * pyval =>
                 let '(k, x) := kv in basic_key k && basic_keys x)
              items
  | _ => true
  end.

End JsonText.

(** ** The callback plugin *)

Module Plugin.
Import Py Json.

(** The objects the host engine hands to the hooks. *)
Record Host : Type := { host_get_name : string }.

Record Task : Type := {
  task_get_name : string;
  task__uuid : string;
  task_action : string;
  task_args : option pydict;        (* [None]: no attribute [args] *)
  task_get_path : option string;    (* "file.yml:line" or [None] *)
}.

Record TaskResult : Type := {
  _host : Host;
  _task : Task;
  _result : pydict;
}.

Record Playbook : Type := { _file_name : string }.

Record Play : Type := {
  play_get_name : string;
  play__uuid : string;
  play_hosts : pyval;
  play_serial : pyval;
}.

Record AggregateStats : Type := {
  processed : list string;
  summarize : string -> pydict;
}.

Record IncludedFile : Type := {
  _filename : string;
  _hosts : list Host;
}.

(** A connected stream socket, named by the path of its peer. *)
Record socket : Type := { peer : string }.

(** [self] *)
Record CallbackModule : Type := {
  _sock : option socket;
  _start_time : option Q;
  _play_start_time : option Q;
  _task_start_times : gmap string Q;
}.

(** What the surroundings answer during one hook invocation: the clock, the
    timestamp, and whether the write on the socket goes through. *)
Record Env : Type := {
  time_time : Q;
  utcnow_isoformat : string;
  sendall_error : option socket_error;
}.

(** The run: the plugin object and the messages whose write to the socket
    completed.  The part of a message that a failing write may already have
    put on the stream is not recorded: statements on the stream are made for
    writes that complete. *)
Record State : Type := {
  self : CallbackModule;
  wire : list string;
}.

(** State and exceptions. *)
Definition M (A : Type) : Type := State -> outcome A * State.

#[global] Instance M_ret : MRet M := fun A a st => (Returns a, st).
#[global] Instance M_bind : MBind M := fun A B f m st =>
  match m st with
  | (Returns a, st') => f a st'
  | (Raises e, st') => (Raises e, st')
  end.

Definition lift {A} (o : outcome A) : M A := fun st => (o, st).

(** [try: body / except Exception: handler] *)
Definition try_except_Exception {A} (body handler : M A) : M A := fun st =>
  match body st with
  | (Returns a, st') => (Returns a, st')
  | (Raises e, st') =>
      if isinstance_Exception e then handler st' else (Raises e, st')
  end.

Definition get_self : M CallbackModule := fun st => (Returns (self st), st).

Definition set_self (s : CallbackModule) : M unit := fun st =>
  (Returns tt, {| self := s; wire := wire st |}).

(** [sock.sendall(data)].  A write that raises records no message: the
    bytes it may have sent before raising are outside the model. *)
Definition socket_sendall (env : Env) (sock : socket) (data : string) : M unit :=
  fun st =>
    match sendall_error env with
    | Some errno => (Raises (OSError errno), st)
    | None => (Returns tt, {| self := self st; wire := wire st ++ [data] |})
    end.

(** The number of hundredths nearest to an exact value, ties to even. *)
Definition hundredths (q : Q) : Z :=
  let n := (Qnum q * 100)%Z in
  let d := Zpos (Qden q) in
  let fl := (n / d)%Z in
  let r := (n mod d)%Z in
  if (2 * r <? d)%Z then fl
  else if (d <? 2 * r)%Z then (fl + 1)%Z
  else if Z.even fl then fl else (fl + 1)%Z.

(** [round(x, 2)] on an exact value.  A float stands for the exact value it
    denotes: the rounding error of doubles is outside the model. *)
Definition round2 (q : Q) : Q := Qred (hundredths q # 100).

(** [round(v, 2)]: an [int] is returned as it is. *)
Definition py_round2 (v : pyval) : pyval :=
  match v with
  | PFloat (FFinite q) => PFloat (FFinite (round2 q))
  | _ => v
  end.

(** [a - b] on two clock readings *)
Definition float_sub (a b : Q) : Q := Qred (a - b).

(** [os.path.basename(p)] *)
Fixpoint basename (p : string) : string :=
  match p with
  | EmptyString => ""
  | String c rest => if contains "/" p then basename rest else p
  end.

(** The event kinds of the specification. *)
Definition EventKind : list string :=
  ["playbook_start"; "play_start"; "task_start"; "host_task_start";
   "host_ok"; "host_failed"; "host_skipped"; "host_unreachable";
   "item_ok"; "item_failed"; "item_skipped"; "host_retry";
   "file_diff"; "include"; "playbook_complete"].

Definition NEWLINE : string := String LF "".

Definition truncation_marker : string := String LF "... [truncated]".

Definition omission_marker : string := "[large data omitted]".

Section Hooks.

Variable float_repr : Q -> string.

(** [__init__]: [environ] is the answer of
    [os.environ.get('ANSIBLE_ENV_SOCKET')], [connect] the outcome of
    creating the socket and connecting it to that path. *)
Definition __init__ (environ : option string)
    (connect : string -> outcome socket) : CallbackModule :=
  let sock :=
    match environ with
    | Some socket_path =>
        if negb (String.eqb socket_path "") then
          match connect socket_path with
          | Returns s => Some s
          | Raises e => None
          end
        else None
    | None => None
    end in
  {| _sock := sock; _start_time := None; _play_start_time := None;
     _task_start_times := ∅ |}.

(** The dictionary [_send] serializes; [data or {}] is its last entry. *)
Definition envelope (env : Env) (event_type : string) (data : option pydict)
    : pyval :=
  PDict [
    (KStr "type", PStr event_type);
    (KStr "timestamp", PStr (utcnow_isoformat env +:+ "Z"));
    (KStr "data",
     PDict (match data with
            | Some d => if truthy (PDict d) then d else []
            | None => []
            end))
  ].

Definition _send (env : Env) (event_type : string) (data : option pydict)
    : M unit :=
  s ← get_self;
  match _sock s with
  | None => mret tt
  | Some sock =>
      try_except_Exception
        (dumped ← lift (json_dumps float_repr (envelope env event_type data));
         let msg := dumped +:+ NEWLINE in
         socket_sendall env sock msg)
        (mret tt)
  end.

Definition omit_keys : list pykey := [KStr "ansible_facts"; KStr "ansible_env"].

(** The body of the loop of [_sanitize_result]. *)
Definition sanitize_item (sanitized : pydict) (item : pykey * pyval) : pydict :=
  let '(key, value) := item in
  if bool_decide (key ∈ omit_keys) then sanitized
  else if isinstance_str value && (5000 <? py_len (str_value value))%Z then
    dict_setitem sanitized key
      (PStr (py_slice_to 5000 (str_value value) +:+ truncation_marker))
  else if (isinstance_dict value || isinstance_list value)
          && (10000 <? py_len (py_str float_repr value))%Z then
    dict_setitem sanitized key (PStr omission_marker)
  else dict_setitem sanitized key value.

Definition _sanitize_result (result : pyval) : pyval :=
  match result with
  | PDict items => PDict (fold_left sanitize_item items [])
  | _ => result
  end.

(** The two size tests of the loop, and the value an entry that is kept
    gets. *)
Definition long_string (value : pyval) : bool :=
  isinstance_str value && (5000 <? py_len (str_value value))%Z.

Definition large_structure (value : pyval) : bool :=
  (isinstance_dict value || isinstance_list value)
  && (10000 <? py_len (py_str float_repr value))%Z.

Definition sanitized_value (value : pyval) : pyval :=
  if long_string value then
    PStr (py_slice_to 5000 (str_value value) +:+ truncation_marker)
  else if large_structure value then PStr omission_marker
  else value.

Definition _host_result (self : CallbackModule) (env : Env)
    (result : TaskResult) : pydict :=
  let task_uuid := task__uuid (_task result) in
  let duration :=
    match _task_start_times self !! task_uuid with
    | Some started => PFloat (FFinite (float_sub (time_time env) started))
    | None => PNone
    end in
  [
    (KStr "host", PStr (host_get_name (_host result)));
    (KStr "task", PStr (task_get_name (_task result)));
    (KStr "task_uuid", PStr task_uuid);
    (KStr "action", PStr (task_action (_task result)));
    (KStr "changed", dict_get_default (KStr "changed") (PBool false) (_result result));
    (KStr "duration", if truthy duration then py_round2 duration else PNone);
    (KStr "result", _sanitize_result (PDict (_result result)))
  ].

(** *** Playbook events *)

Definition v2_playbook_on_start (env : Env) (playbook : Playbook) : M unit :=
  s ← get_self;
  set_self {| _sock := _sock s; _start_time := Some (time_time env);
              _play_start_time := _play_start_time s;
              _task_start_times := _task_start_times s |};;
  _send env "playbook_start" (Some [
    (KStr "playbook", PStr (basename (_file_name playbook)));
    (KStr "path", PStr (_file_name playbook))
  ]).

Definition v2_playbook_on_play_start (env : Env) (play : Play) : M unit :=
  s ← get_self;
  set_self {| _sock := _sock s; _start_time := _start_time s;
              _play_start_time := Some (time_time env);
              _task_start_times := _task_start_times s |};;
  _send env "play_start" (Some [
    (KStr "name", PStr (play_get_name play));
    (KStr "uuid", PStr (play__uuid play));
    (KStr "hosts", if isinstance_list (play_hosts play) then play_hosts play
                   else PList [play_hosts play]);
    (KStr "serial", play_serial play)
  ]).

(** [self._task_start_times[task_uuid] = time.time()] *)
Definition record_task_start (env : Env) (task_uuid : string) : M unit :=
  s ← get_self;
  set_self {| _sock := _sock s; _start_time := _start_time s;
              _play_start_time := _play_start_time s;
              _task_start_times :=
                <[task_uuid := time_time env]> (_task_start_times s) |}.

Definition v2_playbook_on_task_start (env : Env) (task : Task)
    (is_conditional : bool) : M unit :=
  let task_uuid := task__uuid task in
  record_task_start env task_uuid;;
  _send env "task_start" (Some [
    (KStr "name", PStr (task_get_name task));
    (KStr "uuid", PStr task_uuid);
    (KStr "action", PStr (task_action task));
    (KStr "args", match task_args task with
                  | Some a => PDict a
                  | None => PDict []
                  end);
    (KStr "path", match task_get_path task with
                  | Some p => PStr p
                  | None => PNone
                  end);
    (KStr "is_handler", PBool false)
  ]).

Definition v2_playbook_on_handler_task_start (env : Env) (task : Task) : M unit :=
  let task_uuid := task__uuid task in
  record_task_start env task_uuid;;
  _send env "task_start" (Some [
    (KStr "name", PStr (task_get_name task));
    (KStr "uuid", PStr task_uuid);
    (KStr "action", PStr (task_action task));
    (KStr "is_handler", PBool true)
  ]).

(** The entry of [summary] for one host. *)
Definition host_summary (host_stats : pydict) : pyval :=
  PDict [
    (KStr "ok", dict_get_default (KStr "ok") (PInt 0) host_stats);
    (KStr "changed", dict_get_default (KStr "changed") (PInt 0) host_stats);
    (KStr "failures", dict_get_default (KStr "failures") (PInt 0) host_stats);
    (KStr "unreachable", dict_get_default (KStr "unreachable") (PInt 0) host_stats);
    (KStr "skipped", dict_get_default (KStr "skipped") (PInt 0) host_stats);
    (KStr "rescued", dict_get_default (KStr "rescued") (PInt 0) host_stats);
    (KStr "ignored", dict_get_default (KStr "ignored") (PInt 0) host_stats)
  ].

Definition v2_playbook_on_stats (env : Env) (stats : AggregateStats) : M unit :=
  s ← get_self;
  let duration :=
    match _start_time s with
    | Some started =>
        if truthy (PFloat (FFinite started))
        then PFloat (FFinite (float_sub (time_time env) started))
        else PInt 0
    | None => PInt 0
    end in
  let summary :=
    fold_left (fun summary host =>
                 dict_setitem summary (KStr host)
                   (host_summary (summarize stats host)))
              (processed stats) [] in
  _send env "playbook_complete" (Some [
    (KStr "stats", PDict summary);
    (KStr "duration", py_round2 duration)
  ]).

Definition v2_playbook_on_include (env : Env) (included_file : IncludedFile)
    : M unit :=
  _send env "include" (Some [
    (KStr "file", PStr (_filename included_file));
    (KStr "hosts",
     PList (map (fun h => PStr (host_get_name h)) (_hosts included_file)))
  ]).

(** *** Runner events *)

Definition v2_runner_on_start (env : Env) (host : Host) (task : Task) : M unit :=
  _send env "host_task_start" (Some [
    (KStr "host", PStr (host_get_name host));
    (KStr "task", PStr (task_get_name task));
    (KStr "task_uuid", PStr (task__uuid task))
  ]).

Definition v2_runner_on_ok (env : Env) (result : TaskResult) : M unit :=
  s ← get_self;
  let data := _host_result s env result in
  _send env "host_ok" (Some data).

Definition v2_runner_on_failed (env : Env) (result : TaskResult)
    (ignore_errors : bool) : M unit :=
  s ← get_self;
  let data := _host_result s env result in
  let data := dict_setitem data (KStr "ignore_errors") (PBool ignore_errors) in
  _send env "host_failed" (Some data).

Definition v2_runner_on_skipped (env : Env) (result : TaskResult) : M unit :=
  s ← get_self;
  let data := _host_result s env result in
  _send env "host_skipped" (Some data).

Definition v2_runner_on_unreachable (env : Env) (result : TaskResult) : M unit :=
  s ← get_self;
  let data := _host_result s env result in
  _send env "host_unreachable" (Some data).

(** *** Loop item events *)

Definition v2_runner_item_on_ok (env : Env) (result : TaskResult) : M unit :=
  s ← get_self;
  let data := _host_result s env result in
  let data := dict_setitem data (KStr "item")
                (dict_get_default (KStr "item") (PStr "") (_result result)) in
  let data := dict_setitem data (KStr "item_label")
                (dict_get_default (KStr "ansible_loop_var") (PStr "item")
                   (_result result)) in
  _send env "item_ok" (Some data).

Definition v2_runner_item_on_failed (env : Env) (result : TaskResult) : M unit :=
  s ← get_self;
  let data := _host_result s env result in
  let data := dict_setitem data (KStr "item")
                (dict_get_default (KStr "item") (PStr "") (_result result)) in
  _send env "item_failed" (Some data).

Definition v2_runner_item_on_skipped (env : Env) (result : TaskResult) : M unit :=
  s ← get_self;
  let data := _host_result s env result in
  let data := dict_setitem data (KStr "item")
                (dict_get_default (KStr "item") (PStr "") (_result result)) in
  _send env "item_skipped" (Some data).

(** *** Retry events *)

Definition v2_runner_retry (env : Env) (result : TaskResult) : M unit :=
  s ← get_self;
  let data := _host_result s env result in
  let data := dict_setitem data (KStr "retries")
                (dict_get_default (KStr "retries") (PInt 0) (_result result)) in
  let data := dict_setitem data (KStr "attempts")
                (dict_get_default (KStr "attempts") (PInt 0) (_result result)) in
  _send env "host_retry" (Some data).

(** *** Diff events *)

Definition v2_on_file_diff (env : Env) (result : TaskResult) : M unit :=
  if truthy (dict_get_default (KStr "diff") PNone (_result result)) then
    _send env "file_diff" (Some [
      (KStr "host", PStr (host_get_name (_host result)));
      (KStr "task", PStr (task_get_name (_task result)));
      (KStr "diff", dict_get_default (KStr "diff") PNone (_result result))
    ])
  else mret tt.

(** *** The hooks as the host engine calls them *)

(** The hooks that report the result of a task on a host. *)
Inductive result_hook : Type :=
| runner_on_ok
| runner_on_failed (ignore_errors : bool)
| runner_on_skipped
| runner_on_unreachable
| runner_item_on_ok
| runner_item_on_failed
| runner_item_on_skipped
| runner_retry.

Definition run_result_hook (h : result_hook) (env : Env) (result : TaskResult)
    : M unit :=
  match h with
  | runner_on_ok => v2_runner_on_ok env result
  | runner_on_failed ignore_errors => v2_runner_on_failed env result ignore_errors
  | runner_on_skipped => v2_runner_on_skipped env result
  | runner_on_unreachable => v2_runner_on_unreachable env result
  | runner_item_on_ok => v2_runner_item_on_ok env result
  | runner_item_on_failed => v2_runner_item_on_failed env result
  | runner_item_on_skipped => v2_runner_item_on_skipped env result
  | runner_retry => v2_runner_retry env result
  end.

Definition result_event_type (h : result_hook) : string :=
  match h with
  | runner_on_ok => "host_ok"
  | runner_on_failed _ => "host_failed"
  | runner_on_skipped => "host_skipped"
  | runner_on_unreachable => "host_unreachable"
  | runner_item_on_ok => "item_ok"
  | runner_item_on_failed => "item_failed"
  | runner_item_on_skipped => "item_skipped"
  | runner_retry => "host_retry"
  end.

(** What a result hook hands to [_send]: the host result record [base]
    with the additions of the hook, read from the raw result [res]. *)
Definition result_payload (h : result_hook) (base res : pydict) : pydict :=
  match h with
  | runner_on_failed ignore_errors =>
      dict_setitem base (KStr "ignore_errors") (PBool ignore_errors)
  | runner_item_on_ok =>
      dict_setitem
        (dict_setitem base (KStr "item")
           (dict_get_default (KStr "item") (PStr "") res))
        (KStr "item_label")
        (dict_get_default (KStr "ansible_loop_var") (PStr "item") res)
  | runner_item_on_failed | runner_item_on_skipped =>
      dict_setitem base (KStr "item")
        (dict_get_default (KStr "item") (PStr "") res)
  | runner_retry =>
      dict_setitem
        (dict_setitem base (KStr "retries")
           (dict_get_default (KStr "retries") (PInt 0) res))
        (KStr "attempts")
        (dict_get_default (KStr "attempts") (PInt 0) res)
  | _ => base
  end.

(** One invocation of a hook by the host engine. *)
Inductive hook_call : Type :=
| playbook_on_start (playbook : Playbook)
| playbook_on_play_start (play : Play)
| playbook_on_task_start (task : Task) (is_conditional : bool)
| playbook_on_handler_task_start (task : Task)
| playbook_on_stats (stats : AggregateStats)
| playbook_on_include (included_file : IncludedFile)
| runner_on_start (host : Host) (task : Task)
| runner_result (h : result_hook) (result : TaskResult)
| on_file_diff (result : TaskResult).

Definition invoke (c : hook_call) (env : Env) : M unit :=
  match c with
  | playbook_on_start playbook => v2_playbook_on_start env playbook
  | playbook_on_play_start play => v2_playbook_on_play_start env play
  | playbook_on_task_start task is_conditional =>
      v2_playbook_on_task_start env task is_conditional
  | playbook_on_handler_task_start task =>
      v2_playbook_on_handler_task_start env task
  | playbook_on_stats stats => v2_playbook_on_stats env stats
  | playbook_on_include included_file => v2_playbook_on_include env included_file
  | runner_on_start host task => v2_runner_on_start env host task
  | runner_result h result => run_result_hook h env result
  | on_file_diff result => v2_on_file_diff env result
  end.

(** The plugin object a hook leaves, and the event it hands to [_send] (none
    when a diff hook finds no diff), by the object [s] it finds. *)
Definition hook_state (c : hook_call) (env : Env) (s : CallbackModule)
    : CallbackModule :=
  match c with
  | playbook_on_start _ =>
      {| _sock := _sock s; _start_time := Some (time_time env);
         _play_start_time := _play_start_time s;
         _task_start_times := _task_start_times s |}
  | playbook_on_play_start _ =>
      {| _sock := _sock s; _start_time := _start_time s;
         _play_start_time := Some (time_time env);
         _task_start_times := _task_start_times s |}
  | playbook_on_task_start task _ | playbook_on_handler_task_start task =>
      {| _sock := _sock s; _start_time := _start_time s;
         _play_start_time := _play_start_time s;
         _task_start_times :=
           <[task__uuid task := time_time env]> (_task_start_times s) |}
  | _ => s
  end.

Definition hook_event (c : hook_call) (env : Env) (s : CallbackModule)
    : option (string * pydict) :=
  match c with
  | playbook_on_start playbook =>
      Some ("playbook_start",
            [(KStr "playbook", PStr (basename (_file_name playbook)));
             (KStr "path", PStr (_file_name playbook))])
  | playbook_on_play_start play =>
      Some ("play_start",
            [(KStr "name", PStr (play_get_name play));
             (KStr "uuid", PStr (play__uuid play));
             (KStr "hosts", if isinstance_list (play_hosts play)
                            then play_hosts play else PList [play_hosts play]);
             (KStr "serial", play_serial play)])
  | playbook_on_task_start task _ =>
      Some ("task_start",
            [(KStr "name", PStr (task_get_name task));
             (KStr "uuid", PStr (task__uuid task));
             (KStr "action", PStr (task_action task));
             (KStr "args", match task_args task with
                           | Some a => PDict a
                           | None => PDict []
                           end);
             (KStr "path", match task_get_path task with
                           | Some p => PStr p
                           | None => PNone
                           end);
             (KStr "is_handler", PBool false)])
  | playbook_on_handler_task_start task =>
      Some ("task_start",
            [(KStr "name", PStr (task_get_name task));
             (KStr "uuid", PStr (task__uuid task));
             (KStr "action", PStr (task_action task));
             (KStr "is_handler", PBool true)])
  | playbook_on_stats stats =>
      Some ("playbook_complete",
            [(KStr "stats",
              PDict (fold_left
                       (fun summary host =>
                          dict_setitem summary (KStr host)
                            (host_summary (summarize stats host)))
                       (processed stats) []));
             (KStr "duration",
              py_round2
                match _start_time s with
                | Some started =>
                    if truthy (PFloat (FFinite started))
                    then PFloat (FFinite (float_sub (time_time env) started))
                    else PInt 0
                | None => PInt 0
                end)])
  | playbook_on_include included_file =>
      Some ("include",
            [(KStr "file", PStr (_filename included_file));
             (KStr "hosts",
              PList (map (fun h => PStr (host_get_name h))
                         (_hosts included_file)))])
  | runner_on_start host task =>
      Some ("host_task_start",
            [(KStr "host", PStr (host_get_name host));
             (KStr "task", PStr (task_get_name task));
             (KStr "task_uuid", PStr (task__uuid task))])
  | runner_result h result =>
      Some (result_event_type h,
            result_payload h (_host_result s env result) (_result result))
  | on_file_diff result =>
      if truthy (dict_get_default (KStr "diff") PNone (_result result)) then
        Some ("file_diff",
              [(KStr "host", PStr (host_get_name (_host result)));
               (KStr "task", PStr (task_get_name (_task result)));
               (KStr "diff",
                dict_get_default (KStr "diff") PNone (_result result))])
      else None
  end.

(** A run of the host engine: the hooks are invoked one after the other,
    each with the answers of its surroundings. *)
Fixpoint run_hooks (calls : list (hook_call * Env)) (st : State) : State :=
  match calls with
  | [] => st
  | (c, env) :: rest => run_hooks rest (invoke c env st).2
  end.

(** The invocation is a task start hook, plain or handler, of a task with
    this identifier. *)
Definition starts_task (uuid : string) (c : hook_call) : bool :=
  match c with
  | playbook_on_task_start task _ | playbook_on_handler_task_start task =>
      String.eqb (task__uuid task) uuid
  | _ => false
  end.

Definition starts_playbook (c : hook_call) : bool :=
  match c with
  | playbook_on_start _ => true
  | _ => false
  end.

(** The entries [_sanitize_result] keeps, in the order of the input. *)
Fixpoint sanitized_items (items : pydict) : pydict :=
  match items with
  | [] => []
  | (key, value) :: rest =>
      if bool_decide (key ∈ omit_keys) then sanitized_items rest
      else (key, sanitized_value value) :: sanitized_items rest
  end.

End Hooks.

End Plugin.

(** ** Concrete inputs *)

Module Sample.
Import Py Json Plugin.

Definition digit (d : Z) : string := String (ascii_of_N (48 + Z.to_N d)) "".

(** A [float_repr] that is the one of Python on the values [round(x, 2)]
    yields (below 1e16 in magnitude): the hundredths written out, without a
    trailing zero after the first decimal. *)
Definition float_repr (q : Q) : string :=
  let k := hundredths q in
  let a := Z.abs k in
  (if k <? 0 then "-" else "") +:+ int_str (a / 100) +:+ "." +:+
  (if a mod 10 =? 0 then digit (a mod 100 / 10)
   else digit (a mod 100 / 10) +:+ digit (a mod 10)).

Fixpoint replicate_char (n : nat) (c : ascii) : string :=
  match n with
  | O => ""
  | S k => String c (replicate_char k c)
  end.

(** A string of 6000 characters. *)
Definition text6000 : string := replicate_char (Z.to_nat 6000) "a".

(** Collected facts whose text has more than 10000 characters. *)
Definition large_facts : pyval :=
  PDict [(KStr "ansible_all_ipv4_addresses",
          PList (repeat (PStr "10.0.0.1") (Z.to_nat 1000)))].

Definition result_with_facts : pydict :=
  [(KStr "ansible_facts", large_facts); (KStr "msg", PStr "ok")].

Definition result_with_long_stdout : pydict :=
  [(KStr "changed", PBool false); (KStr "stdout", PStr text6000)].

Definition result_with_large_list : pydict :=
  [(KStr "changed", PBool true);
   (KStr "results", PList (repeat (PStr "10.0.0.1") (Z.to_nat 1000)))].

Definition host1 : Host := {| host_get_name := "web1" |}.

Definition task_abc : Task :=
  {| task_get_name := "Install package"; task__uuid := "abc";
     task_action := "package";
     task_args := Some [(KStr "name", PStr "nginx")];
     task_get_path := Some "site.yml:12" |}.

Definition result_ok : TaskResult :=
  {| _host := host1; _task := task_abc;
     _result := [(KStr "changed", PBool true); (KStr "msg", PStr "ok")] |}.

(** A result whose [diff] has a key the encoder refuses. *)
Definition result_tuple_key : TaskResult :=
  {| _host := host1; _task := task_abc;
     _result := [(KStr "changed", PBool true);
                 (KStr "diff", PDict [(KTuple [1; 2], PStr "x")])] |}.

Definition connected : CallbackModule :=
  {| _sock := Some {| peer := "/tmp/ansible-env.sock" |};
     _start_time := None; _play_start_time := None;
     _task_start_times := ∅ |}.

Definition env_at (now : Q) (err : option socket_error) : Env :=
  {| time_time := now; utcnow_isoformat := "2024-05-01T10:00:00.000123";
     sendall_error := err |}.

(** The plugin after the start of task [abc] at clock reading 100. *)
Definition started : CallbackModule :=
  {| _sock := Some {| peer := "/tmp/ansible-env.sock" |};
     _start_time := Some (90 # 1)%Q; _play_start_time := Some (95 # 1)%Q;
     _task_start_times := {[ "abc" := (100 # 1)%Q ]} |}.

Definition fresh (s : CallbackModule) : State := {| self := s; wire := [] |}.

Definition stats1 : AggregateStats :=
  {| processed := ["web1"];
     summarize := fun _ => [(KStr "ok", PInt 3); (KStr "changed", PInt 1)] |}.

(** A result that carries a float that is not a number. *)
Definition result_nan : TaskResult :=
  {| _host := host1; _task := task_abc;
     _result := [(KStr "changed", PBool false); (KStr "rate", PFloat FNaN)] |}.

(** A loop result whose item is a string of 6000 characters. *)
Definition result_long_item : TaskResult :=
  {| _host := host1; _task := task_abc;
     _result := [(KStr "changed", PBool false); (KStr "item", PStr text6000)] |}.

Definition playbook1 : Playbook := {| _file_name := "playbooks/site.yml" |}.

(** A short run: playbook start, task start, start on a host, result. *)
Definition run1 : list (hook_call * Env) :=
  [(playbook_on_start playbook1, env_at 90 None);
   (playbook_on_task_start task_abc false, env_at 100 None);
   (runner_on_start host1 task_abc, env_at 101 None);
   (runner_result runner_on_ok result_ok, env_at (10234 # 100) None)].

(** Hooks that start neither a playbook nor the task [abc]. *)
Definition run2 : list (hook_call * Env) :=
  [(runner_on_start host1 task_abc, env_at 101 None);
   (runner_result runner_on_skipped result_ok, env_at 102 (Some EPIPE))].

End Sample.

Import Py Json JsonText Plugin.

(** ** Text and dictionary lemmas *)

Lemma length_append (s t : string) :
  String.length (s +:+ t) = (String.length s + String.length t)%nat.
Proof.
  induction s as [|c s IH]; [reflexivity|].
  change (String c s +:+ t) with (String c (s +:+ t)).
  cbn [String.length]. by rewrite IH.
Qed.

Lemma append_assoc (s t u : string) : (s +:+ t) +:+ u = s +:+ (t +:+ u).
Proof.
  induction s as [|c s IH]; [reflexivity|].
  change (String c ((s +:+ t) +:+ u) = String c (s +:+ (t +:+ u))).
  by rewrite IH.
Qed.

Lemma append_nil_r (s : string) : s +:+ "" = s.
Proof.
  induction s as [|c s IH]; [reflexivity|].
  change (String c (s +:+ "") = String c s). by rewrite IH.
Qed.

Lemma py_len_app (s t : string) : py_len (s +:+ t) = py_len s + py_len t.
Proof. unfold py_len. rewrite length_append. lia. Qed.

Lemma py_len_nonneg (s : string) : 0 <= py_len s.
Proof. unfold py_len. lia. Qed.

Lemma substring_prefix_split (n : nat) (s : string) :
  (n <= String.length s)%nat ->
  exists rest, s = substring 0 n s +:+ rest /\ String.length (substring 0 n s) = n.
Proof.
  revert s. induction n as [|n IH]; intros s Hn.
  - exists s. destruct s; simpl; auto.
  - destruct s as [|c s]; simpl in Hn; [lia|].
    destruct (IH s) as [rest [Hs Hl]]; [lia|].
    exists rest. cbn [substring String.length]. split; [|by rewrite Hl].
    change (String c (substring 0 n s) +:+ rest)
      with (String c (substring 0 n s +:+ rest)).
    by rewrite <- Hs.
Qed.

Lemma py_slice_to_split (n : Z) (s : string) :
  0 <= n <= py_len s ->
  exists rest, s = py_slice_to n s +:+ rest /\ py_len (py_slice_to n s) = n.
Proof.
  intros Hn. unfold py_slice_to, py_len in *.
  destruct (substring_prefix_split (Z.to_nat n) s) as [rest [Hs Hl]]; [lia|].
  exists rest. split; [exact Hs | rewrite Hl; lia].
Qed.

Lemma truncation_marker_len : py_len truncation_marker = 16.
Proof. reflexivity. Qed.

Lemma dict_get_setitem_eq (d : pydict) (k : pykey) (v : pyval) :
  dict_get k (dict_setitem d k v) = Some v.
Proof.
  induction d as [|[k0 v0] d IH]; simpl.
  - by rewrite decide_True.
  - destruct (decide (k0 = k)) as [->|Hne]; simpl.
    + by rewrite decide_True.
    + by rewrite decide_False.
Qed.

Lemma dict_get_setitem_ne (d : pydict) (k k' : pykey) (v : pyval) :
  k <> k' -> dict_get k' (dict_setitem d k v) = dict_get k' d.
Proof.
  intros Hne. induction d as [|[k0 v0] d IH]; simpl.
  - by rewrite decide_False.
  - destruct (decide (k0 = k)) as [->|Hne0]; simpl.
    + by rewrite !decide_False.
    + destruct (decide (k0 = k')); [done | exact IH].
Qed.

Lemma dict_get_None (d : pydict) (k : pykey) :
  dict_get k d = None <-> k ∉ dict_keys d.
Proof.
  unfold dict_keys. induction d as [|[k0 v0] d IH]; simpl.
  - split; [intros _; apply not_elem_of_nil | done].
  - rewrite not_elem_of_cons. destruct (decide (k0 = k)) as [->|Hne].
    + split; [done | intros [? _]; done].
    + rewrite IH. split; [intros ?; split; [congruence | done] | intros [_ ?]; done].
Qed.

Lemma dict_get_Some_key (d : pydict) (k : pykey) (v : pyval) :
  dict_get k d = Some v -> k ∈ dict_keys d.
Proof.
  intros H. destruct (decide (k ∈ dict_keys d)) as [|Hn]; [done|].
  apply dict_get_None in Hn. congruence.
Qed.

Lemma dict_keys_setitem (d : pydict) (k : pykey) (v : pyval) (k' : pykey) :
  k' ∈ dict_keys (dict_setitem d k v) <-> k' = k \/ k' ∈ dict_keys d.
Proof.
  unfold dict_keys. induction d as [|[k0 v0] d IH]; simpl.
  - rewrite list_elem_of_singleton. split; [auto | intros [?|H]; [done | inversion H]].
  - destruct (decide (k0 = k)) as [->|Hne]; simpl; rewrite !elem_of_cons.
    + tauto.
    + rewrite IH. tauto.
Qed.

(** ** The result sanitizer *)

Section Sanitizer.

Variable float_repr : Q -> string.

Lemma sanitize_item_eq (acc : pydict) (key : pykey) (value : pyval) :
  sanitize_item float_repr acc (key, value) =
  if bool_decide (key ∈ omit_keys) then acc
  else dict_setitem acc key (sanitized_value float_repr value).
Proof.
  unfold sanitize_item, sanitized_value, long_string, large_structure.
  destruct (bool_decide (key ∈ omit_keys)); [done|].
  destruct (isinstance_str value && (5000 <? py_len (str_value value))); [done|].
  by destruct ((isinstance_dict value || isinstance_list value)
               && (10000 <? py_len (py_str float_repr value))).
Qed.

Lemma omit_keys_spec (key : pykey) :
  key ∈ omit_keys <-> key = KStr "ansible_facts" \/ key = KStr "ansible_env".
Proof.
  unfold omit_keys. rewrite elem_of_cons, list_elem_of_singleton. tauto.
Qed.

(** What the loop leaves under a key, by the entry of the input. *)
Lemma sanitize_fold_get (items : pydict) :
  forall (acc : pydict) (key : pykey),
    NoDup (dict_keys items) ->
    dict_get key (fold_left (sanitize_item float_repr) items acc) =
    match dict_get key items with
    | Some value =>
        if bool_decide (key ∈ omit_keys) then dict_get key acc
        else Some (sanitized_value float_repr value)
    | None => dict_get key acc
    end.
Proof.
  induction items as [|[k0 v0] items IH]; intros acc key Hnd; [done|].
  unfold dict_keys in Hnd. cbn [map fst] in Hnd.
  apply NoDup_cons in Hnd as [Hk0 Hnd].
  cbn [fold_left dict_get].
  rewrite (IH (sanitize_item float_repr acc (k0, v0)) key Hnd), sanitize_item_eq.
  destruct (decide (k0 = key)) as [->|Hne].
  - apply dict_get_None in Hk0. rewrite Hk0.
    destruct (bool_decide (key ∈ omit_keys)); [done|].
    apply dict_get_setitem_eq.
  - assert (Hacc : dict_get key
              (if bool_decide (k0 ∈ omit_keys) then acc
               else dict_setitem acc k0 (sanitized_value float_repr v0))
            = dict_get key acc).
    { destruct (bool_decide (k0 ∈ omit_keys)); [done|].
      by apply dict_get_setitem_ne. }
    rewrite Hacc. done.
Qed.

Lemma sanitize_get (items : pydict) (key : pykey) :
  NoDup (dict_keys items) ->
  dict_get key (fold_left (sanitize_item float_repr) items []) =
  match dict_get key items with
  | Some value =>
      if bool_decide (key ∈ omit_keys) then None
      else Some (sanitized_value float_repr value)
  | None => None
  end.
Proof. intros Hnd. by rewrite sanitize_fold_get. Qed.

(** The keys the loop writes are never omitted ones. *)
Lemma sanitize_fold_keys (items : pydict) :
  forall (acc : pydict) (key : pykey),
    key ∈ dict_keys (fold_left (sanitize_item float_repr) items acc) ->
    (key ∈ dict_keys acc) \/ ((key ∉ omit_keys) /\ (key ∈ dict_keys items)).
Proof.
  induction items as [|[k0 v0] items IH]; intros acc key Hin; [by left|].
  cbn [fold_left] in Hin. apply IH in Hin as [Hin|[Hno Hin]].
  - rewrite sanitize_item_eq in Hin. case_bool_decide as Hom; [by left|].
    apply dict_keys_setitem in Hin as [->|Hin]; [|by left].
    right. split; [done|]. unfold dict_keys. simpl. apply list_elem_of_here.
  - right. split; [done|]. unfold dict_keys. simpl. by apply list_elem_of_further.
Qed.

Lemma omit_keys_absent (items : pydict) (key : pykey) :
  key ∈ omit_keys ->
  key ∉ dict_keys (fold_left (sanitize_item float_repr) items []).
Proof.
  intros Hom Hin. apply sanitize_fold_keys in Hin as [Hin|[Hno _]].
  - by apply not_elem_of_nil in Hin.
  - done.
Qed.

Lemma long_string_false_structure (value : pyval) :
  isinstance_dict value || isinstance_list value = true ->
  long_string value = false.
Proof. by destruct value. Qed.

End Sanitizer.

(** ** Claims on the result sanitizer *)

Section SanitizerClaims.

Variable float_repr : Q -> string.

(** C1 (amended).  For a mapping and a key outside the omitted ones whose
    value is a string of more than 5000 characters, the sanitized value is
    the first 5000 characters of that string followed by the marker
    "\n... [truncated]"; the marker has 16 characters, so the output has
    exactly 5016. *)
Theorem long_string_truncated (items : pydict) (key : pykey) (s : string) :
  NoDup (dict_keys items) ->
  dict_get key items = Some (PStr s) ->
  key ∉ omit_keys ->
  5000 < py_len s ->
  exists (out : pydict) (head rest : string),
    _sanitize_result float_repr (PDict items) = PDict out /\
    dict_get key out = Some (PStr (head +:+ truncation_marker)) /\
    s = head +:+ rest /\
    py_len head = 5000 /\
    py_len (head +:+ truncation_marker) = 5016.
Proof.
  intros Hnd Hget Hkey Hlen.
  destruct (py_slice_to_split 5000 s) as [rest [Hs Hhead]]; [lia|].
  exists (fold_left (sanitize_item float_repr) items []),
         (py_slice_to 5000 s), rest.
  split; [done|]. split.
  - rewrite sanitize_get, Hget by done.
    rewrite bool_decide_eq_false_2 by done.
    unfold sanitized_value, long_string. cbn [isinstance_str str_value andb].
    by rewrite (proj2 (Z.ltb_lt _ _) Hlen).
  - split; [done|]. split; [done|].
    rewrite py_len_app, Hhead, truncation_marker_len. lia.
Qed.

(** C3.  The keys 'ansible_facts' and 'ansible_env' are never keys of the
    output; every other key whose value is neither a string of more than
    5000 characters nor a mapping or sequence whose text has more than
    10000 characters keeps its value. *)
Theorem omitted_keys_dropped_others_kept (items : pydict) :
  NoDup (dict_keys items) ->
  exists out : pydict,
    _sanitize_result float_repr (PDict items) = PDict out /\
    (KStr "ansible_facts" ∉ dict_keys out) /\
    (KStr "ansible_env" ∉ dict_keys out) /\
    forall (key : pykey) (value : pyval),
      dict_get key items = Some value ->
      key <> KStr "ansible_facts" ->
      key <> KStr "ansible_env" ->
      (forall s, value = PStr s -> py_len s <= 5000) ->
      (isinstance_dict value || isinstance_list value = true ->
       py_len (py_str float_repr value) <= 10000) ->
      dict_get key out = Some value.
Proof.
  intros Hnd. exists (fold_left (sanitize_item float_repr) items []).
  split; [done|].
  split; [apply omit_keys_absent, omit_keys_spec; by left|].
  split; [apply omit_keys_absent, omit_keys_spec; by right|].
  intros key value Hget Hk1 Hk2 Hstr Hbig.
  rewrite sanitize_get, Hget by done.
  rewrite bool_decide_eq_false_2 by (rewrite omit_keys_spec; tauto).
  f_equal. unfold sanitized_value.
  assert (Hl : long_string value = false).
  { unfold long_string. destruct value; try done.
    cbn [isinstance_str str_value andb]. apply Z.ltb_ge. by apply Hstr. }
  rewrite Hl. unfold large_structure.
  destruct (isinstance_dict value || isinstance_list value) eqn:Hst; [|done].
  cbn [andb]. by rewrite (proj2 (Z.ltb_ge _ _) (Hbig eq_refl)).
Qed.

(** C4.  A key outside the omitted ones whose value is a mapping or a
    sequence with a text of more than 10000 characters gets the literal
    "[large data omitted]".  The tests are tried in order, the first that
    holds decides alone: omitted key, then long string, then large
    structure, else the value is kept; the two size tests never hold of
    the same value. *)
Theorem large_structure_replaced_checks_ordered (items : pydict) :
  NoDup (dict_keys items) ->
  exists out : pydict,
    _sanitize_result float_repr (PDict items) = PDict out /\
    forall (key : pykey) (value : pyval),
      dict_get key items = Some value ->
      (key ∉ omit_keys ->
       isinstance_dict value || isinstance_list value = true ->
       10000 < py_len (py_str float_repr value) ->
       dict_get key out = Some (PStr "[large data omitted]")) /\
      (key ∈ omit_keys -> dict_get key out = None) /\
      (key ∉ omit_keys -> long_string value = true ->
       dict_get key out =
       Some (PStr (py_slice_to 5000 (str_value value) +:+ truncation_marker))) /\
      (key ∉ omit_keys -> long_string value = false ->
       large_structure float_repr value = true ->
       dict_get key out = Some (PStr "[large data omitted]")) /\
      (key ∉ omit_keys -> long_string value = false ->
       large_structure float_repr value = false ->
       dict_get key out = Some value) /\
      long_string value && large_structure float_repr value = false.
Proof.
  intros Hnd. exists (fold_left (sanitize_item float_repr) items []).
  split; [done|]. intros key value Hget.
  rewrite sanitize_get, Hget by done. unfold sanitized_value.
  repeat split.
  - intros Hk Hst Hbig. rewrite bool_decide_eq_false_2 by done.
    rewrite (long_string_false_structure _ Hst). unfold large_structure.
    by rewrite Hst, (proj2 (Z.ltb_lt _ _) Hbig).
  - intros Hk. by rewrite bool_decide_eq_true_2.
  - intros Hk Hl. rewrite bool_decide_eq_false_2 by done. by rewrite Hl.
  - intros Hk Hl Hb. rewrite bool_decide_eq_false_2 by done. by rewrite Hl, Hb.
  - intros Hk Hl Hb. rewrite bool_decide_eq_false_2 by done. by rewrite Hl, Hb.
  - unfold long_string, large_structure.
    destruct value; cbn [isinstance_str isinstance_dict isinstance_list andb orb];
      rewrite ?andb_false_r; done.
Qed.

End SanitizerClaims.

(** Scenario C of the specification, as stated there, fails: the field
    sanitized from a string of 6000 characters has 5016 characters, not
    5017. *)
Lemma truncated_6000_is_not_5017 :
  py_len Sample.text6000 = 6000 /\
  exists out : string,
    _sanitize_result Sample.float_repr (PDict Sample.result_with_long_stdout) =
      PDict [(KStr "changed", PBool false); (KStr "stdout", PStr out)] /\
    py_len out = 5016 /\
    py_len out <> 5017.
Proof.
  split; [by vm_compute|].
  exists (py_slice_to 5000 Sample.text6000 +:+ truncation_marker).
  split; [by vm_compute|]. split; [by vm_compute|].
  vm_compute. discriminate.
Qed.

Lemma long_string_truncated_witness :
  NoDup (dict_keys Sample.result_with_long_stdout) /\
  dict_get (KStr "stdout") Sample.result_with_long_stdout
    = Some (PStr Sample.text6000) /\
  (KStr "stdout" ∉ omit_keys) /\
  5000 < py_len Sample.text6000 /\
  exists (out : pydict) (head rest : string),
    _sanitize_result Sample.float_repr (PDict Sample.result_with_long_stdout)
      = PDict out /\
    dict_get (KStr "stdout") out = Some (PStr (head +:+ truncation_marker)) /\
    Sample.text6000 = head +:+ rest /\
    py_len head = 5000 /\
    py_len (head +:+ truncation_marker) = 5016.
Proof.
  assert (Hnd : NoDup (dict_keys Sample.result_with_long_stdout))
    by (apply (bool_decide_unpack _); vm_compute; exact I).
  assert (Hget : dict_get (KStr "stdout") Sample.result_with_long_stdout
                 = Some (PStr Sample.text6000)) by reflexivity.
  assert (Hkey : KStr "stdout" ∉ omit_keys)
    by (apply (bool_decide_unpack _); vm_compute; exact I).
  assert (Hlen : 5000 < py_len Sample.text6000) by (vm_compute; reflexivity).
  split; [exact Hnd|]. split; [exact Hget|]. split; [exact Hkey|].
  split; [exact Hlen|].
  exact (long_string_truncated Sample.float_repr
           Sample.result_with_long_stdout (KStr "stdout") Sample.text6000
           Hnd Hget Hkey Hlen).
Defined.

Lemma omitted_keys_dropped_others_kept_witness :
  NoDup (dict_keys Sample.result_with_facts) /\
  exists out : pydict,
    _sanitize_result Sample.float_repr (PDict Sample.result_with_facts)
      = PDict out /\
    (KStr "ansible_facts" ∉ dict_keys out) /\
    (KStr "ansible_env" ∉ dict_keys out) /\
    dict_get (KStr "msg") out = Some (PStr "ok").
Proof.
  assert (Hnd : NoDup (dict_keys Sample.result_with_facts))
    by (apply (bool_decide_unpack _); vm_compute; exact I).
  split; [exact Hnd|].
  destruct (omitted_keys_dropped_others_kept Sample.float_repr
              Sample.result_with_facts Hnd) as [out [Hout [Hf [He Hkeep]]]].
  exists out. split; [exact Hout|]. split; [exact Hf|]. split; [exact He|].
  apply Hkeep; [reflexivity | discriminate | discriminate | | discriminate].
  intros s Hs. injection Hs as <-. vm_compute. discriminate.
Defined.

(** ** The connection and the hooks *)

Section Bridge.

Variable float_repr : Q -> string.

(** What [_send] does, case by case: it returns, and the message is on the
    wire exactly when the plugin is connected, the envelope serializes and
    the write goes through. *)
Lemma _send_run (env : Env) (event_type : string) (data : option pydict)
    (st : State) :
  _send float_repr env event_type data st =
  (Returns tt,
   match _sock (self st),
         json_dumps float_repr (envelope env event_type data),
         sendall_error env with
   | Some _, Returns text, None =>
       {| self := self st; wire := wire st ++ [text +:+ NEWLINE] |}
   | _, _, _ => st
   end).
Proof.
  unfold _send, mbind, M_bind, get_self, try_except_Exception, lift,
    socket_sendall, mret, M_ret.
  destruct (_sock (self st)) as [sock|]; [|done].
  destruct (json_dumps float_repr (envelope env event_type data)) as [text|e].
  - destruct (sendall_error env); done.
  - by destruct e.
Qed.

Lemma _send_self (env : Env) (event_type : string) (data : option pydict)
    (st : State) :
  self (_send float_repr env event_type data st).2 = self st.
Proof.
  rewrite _send_run. cbn [snd].
  destruct (_sock (self st)); [|done].
  destruct (json_dumps float_repr (envelope env event_type data)); [|done].
  by destruct (sendall_error env).
Qed.

Lemma _send_returns (env : Env) (event_type : string) (data : option pydict)
    (st : State) :
  (_send float_repr env event_type data st).1 = Returns tt.
Proof. by rewrite _send_run. Qed.

Lemma run_result_hook_send (h : result_hook) (env : Env) (result : TaskResult)
    (st : State) :
  run_result_hook float_repr h env result st =
  _send float_repr env (result_event_type h)
    (Some (result_payload h (_host_result float_repr (self st) env result)
             (_result result))) st.
Proof. by destruct h. Qed.

Lemma host_result_keys (s : CallbackModule) (env : Env) (result : TaskResult) :
  dict_keys (_host_result float_repr s env result) =
  [KStr "host"; KStr "task"; KStr "task_uuid"; KStr "action";
   KStr "changed"; KStr "duration"; KStr "result"].
Proof. reflexivity. Qed.

Lemma result_payload_keeps (h : result_hook) (base res : pydict)
    (key : pykey) (value : pyval) :
  key ∈ [KStr "host"; KStr "task"; KStr "task_uuid"; KStr "action";
         KStr "changed"; KStr "duration"; KStr "result"] ->
  dict_get key base = Some value ->
  dict_get key (result_payload h base res) = Some value.
Proof.
  intros Hkey Hget.
  assert (Hne : forall k' v' d, k' ∈ [KStr "ignore_errors"; KStr "item";
                  KStr "item_label"; KStr "retries"; KStr "attempts"] ->
                dict_get key d = Some value ->
                dict_get key (dict_setitem d k' v') = Some value).
  { intros k' v' d Hk' Hd. rewrite dict_get_setitem_ne; [done|].
    intros ->. revert Hkey Hk'.
    rewrite !elem_of_cons, !elem_of_nil. intros Hkey Hk'.
    repeat (destruct Hkey as [->|Hkey]);
      repeat (destruct Hk' as [Hk'|Hk']); try discriminate; done. }
  destruct h; cbn [result_payload]; try done;
    repeat (apply Hne; [rewrite !elem_of_cons; tauto|]); done.
Qed.

Lemma float_sub_self (t : Q) : Qnum (float_sub t t) = 0.
Proof.
  unfold float_sub.
  assert (H : Qred (t - t) = Qred 0).
  { apply Qred_complete. unfold Qminus. apply Qplus_opp_r. }
  by rewrite H.
Qed.

End Bridge.

(** ** Claims on timing, sending and payloads *)

Section BridgeClaims.

Variable float_repr : Q -> string.

(** C2, at the input where the code departs from it.  A task start hook
    records the clock reading of the task; a host result arriving at the
    same clock reading has an elapsed time of zero, its identifier is in
    the table, and yet every result hook emits the duration [None]. *)
Theorem duration_null_at_zero_elapsed (st : State) (task : Task)
    (is_conditional : bool) (host : Host) (res : pydict) (env : Env)
    (h : result_hook) :
  let st1 := (v2_playbook_on_task_start float_repr env task is_conditional st).2 in
  let result := {| _host := host; _task := task; _result := res |} in
  _task_start_times (self st1) !! task__uuid task = Some (time_time env) /\
  dict_get (KStr "duration")
    (result_payload h (_host_result float_repr (self st1) env result) res)
    = Some PNone /\
  run_result_hook float_repr h env result st1 =
    _send float_repr env (result_event_type h)
      (Some (result_payload h (_host_result float_repr (self st1) env result) res))
      st1.
Proof.
  intros st1 result.
  assert (Hself : _task_start_times (self st1) !! task__uuid task
                  = Some (time_time env)).
  { unfold st1, v2_playbook_on_task_start, record_task_start.
    unfold mbind, M_bind, get_self, set_self. cbn [fst snd].
    rewrite _send_self. cbn [self _task_start_times]. apply lookup_insert_eq. }
  split; [exact Hself|]. split; [|apply run_result_hook_send].
  apply result_payload_keeps; [rewrite !elem_of_cons; tauto|].
  unfold _host_result. cbn [_task result]. rewrite Hself.
  cbn [truthy dict_get]. rewrite float_sub_self. reflexivity.
Qed.

(** C5.  For a task identifier that is not in the timing table the
    duration of the host result record is [None] (no error, not zero), the
    other six fields are there, and every result hook returns after handing
    the record, with that duration, to [_send]. *)
Theorem unknown_task_duration_null (st : State) (env : Env)
    (result : TaskResult) (h : result_hook) :
  _task_start_times (self st) !! task__uuid (_task result) = None ->
  let base := _host_result float_repr (self st) env result in
  let data := result_payload h base (_result result) in
  dict_get (KStr "duration") data = Some PNone /\
  dict_get (KStr "host") data = Some (PStr (host_get_name (_host result))) /\
  dict_get (KStr "task") data = Some (PStr (task_get_name (_task result))) /\
  dict_get (KStr "task_uuid") data = Some (PStr (task__uuid (_task result))) /\
  dict_get (KStr "action") data = Some (PStr (task_action (_task result))) /\
  dict_get (KStr "changed") data
    = Some (dict_get_default (KStr "changed") (PBool false) (_result result)) /\
  dict_get (KStr "result") data
    = Some (_sanitize_result float_repr (PDict (_result result))) /\
  run_result_hook float_repr h env result st =
    _send float_repr env (result_event_type h) (Some data) st /\
  (run_result_hook float_repr h env result st).1 = Returns tt.
Proof.
  intros Hnone base data.
  assert (Hbase : dict_get (KStr "duration") base = Some PNone).
  { unfold base, _host_result. by rewrite Hnone. }
  repeat split;
    try (apply result_payload_keeps; [rewrite !elem_of_cons; tauto|]; done).
  - apply run_result_hook_send.
  - rewrite run_result_hook_send. apply _send_returns.
Qed.

(** C6.  A send whose serialization raises or whose socket write fails
    returns normally and leaves the whole state as it was: the connection
    handle, the timing table and the wire.  The next send is tried as usual
    and, when nothing fails, puts its line on the wire. *)
Theorem send_failure_absorbed (env : Env) (event_type : string)
    (data : option pydict) (st : State) :
  (exists e, json_dumps float_repr (envelope env event_type data) = Raises e)
  \/ (exists errno, sendall_error env = Some errno) ->
  _send float_repr env event_type data st = (Returns tt, st) /\
  forall (env2 : Env) (event_type2 : string) (data2 : option pydict)
         (sock : socket) (text : string),
    _sock (self st) = Some sock ->
    json_dumps float_repr (envelope env2 event_type2 data2) = Returns text ->
    sendall_error env2 = None ->
    _send float_repr env2 event_type2 data2
      (_send float_repr env event_type data st).2 =
    (Returns tt, {| self := self st; wire := wire st ++ [text +:+ NEWLINE] |}).
Proof.
  intros Hfail.
  assert (Hrun : _send float_repr env event_type data st = (Returns tt, st)).
  { rewrite _send_run. f_equal. destruct (_sock (self st)); [|done].
    destruct Hfail as [[e He]|[errno He]]; rewrite He; [done|].
    by destruct (json_dumps float_repr (envelope env event_type data)). }
  split; [exact Hrun|].
  intros env2 event_type2 data2 sock text Hsock Hdump Hok.
  rewrite Hrun. cbn [snd]. rewrite _send_run. by rewrite Hsock, Hdump, Hok.
Qed.

(** C7 (amended).  The payload of a host_task_start event has exactly the
    fields host, task and task_uuid: the name of the host, the name of the
    task and its identifier.  On a connected plugin whose write goes
    through, the line written carries these three fields and no other. *)
Theorem host_task_start_payload (env : Env) (host : Host) (task : Task)
    (st : State) (sock : socket) :
  _sock (self st) = Some sock ->
  sendall_error env = None ->
  let data := [(KStr "host", PStr (host_get_name host));
               (KStr "task", PStr (task_get_name task));
               (KStr "task_uuid", PStr (task__uuid task))] in
  v2_runner_on_start float_repr env host task =
    _send float_repr env "host_task_start" (Some data) /\
  v2_runner_on_start float_repr env host task st =
    (Returns tt,
     {| self := self st;
        wire := wire st ++ [
          json_object [
            json_member "type" (json_string "host_task_start");
            json_member "timestamp"
              (json_string (utcnow_isoformat env +:+ "Z"));
            json_member "data" (json_object [
              json_member "host" (json_string (host_get_name host));
              json_member "task" (json_string (task_get_name task));
              json_member "task_uuid" (json_string (task__uuid task))])]
          +:+ NEWLINE] |}).
Proof.
  intros Hsock Hok data. split; [reflexivity|].
  unfold v2_runner_on_start. rewrite _send_run, Hsock, Hok.
  reflexivity.
Qed.

(** C8, where the code departs from it.  The payloads of item_failed and
    item_skipped carry the seven fields of the host result and the loop
    item, but no label: the key item_label is set by the item_ok hook
    alone. *)
Theorem item_label_only_on_item_ok (st : State) (env : Env)
    (result : TaskResult) :
  let base := _host_result float_repr (self st) env result in
  let res := _result result in
  run_result_hook float_repr runner_item_on_failed env result st =
    _send float_repr env "item_failed"
      (Some (result_payload runner_item_on_failed base res)) st /\
  run_result_hook float_repr runner_item_on_skipped env result st =
    _send float_repr env "item_skipped"
      (Some (result_payload runner_item_on_skipped base res)) st /\
  dict_keys (result_payload runner_item_on_failed base res) =
    [KStr "host"; KStr "task"; KStr "task_uuid"; KStr "action";
     KStr "changed"; KStr "duration"; KStr "result"; KStr "item"] /\
  dict_keys (result_payload runner_item_on_skipped base res) =
    [KStr "host"; KStr "task"; KStr "task_uuid"; KStr "action";
     KStr "changed"; KStr "duration"; KStr "result"; KStr "item"] /\
  dict_get (KStr "item_label") (result_payload runner_item_on_failed base res)
    = None /\
  dict_get (KStr "item_label") (result_payload runner_item_on_skipped base res)
    = None /\
  dict_get (KStr "item_label") (result_payload runner_item_on_ok base res)
    = Some (dict_get_default (KStr "ansible_loop_var") (PStr "item") res).
Proof.
  intros base res. repeat split.
Qed.

(** C10.  When no playbook start was recorded, the statistics hook
    returns normally, hands to [_send] a playbook_complete event whose
    duration is the integer 0, and on a connected plugin whose envelope
    serializes and whose write goes through the line is on the wire. *)
Theorem stats_without_start_duration_zero (env : Env) (stats : AggregateStats)
    (st : State) :
  _start_time (self st) = None ->
  let summary :=
    fold_left (fun summary host =>
                 dict_setitem summary (KStr host)
                   (host_summary (summarize stats host)))
              (processed stats) [] in
  let data := [(KStr "stats", PDict summary); (KStr "duration", PInt 0)] in
  v2_playbook_on_stats float_repr env stats st =
    _send float_repr env "playbook_complete" (Some data) st /\
  (v2_playbook_on_stats float_repr env stats st).1 = Returns tt /\
  forall (sock : socket) (text : string),
    _sock (self st) = Some sock ->
    json_dumps float_repr (envelope env "playbook_complete" (Some data))
      = Returns text ->
    sendall_error env = None ->
    (v2_playbook_on_stats float_repr env stats st).2 =
    {| self := self st; wire := wire st ++ [text +:+ NEWLINE] |}.
Proof.
  intros Hstart summary data.
  assert (Hrun : v2_playbook_on_stats float_repr env stats st =
                 _send float_repr env "playbook_complete" (Some data) st).
  { unfold v2_playbook_on_stats, mbind, M_bind, get_self. by rewrite Hstart. }
  split; [exact Hrun|]. rewrite Hrun. split; [apply _send_returns|].
  intros sock text Hsock Hdump Hok. by rewrite _send_run, Hsock, Hdump, Hok.
Qed.

End BridgeClaims.

(** ** The claims on concrete inputs *)

Lemma large_structure_replaced_checks_ordered_witness :
  NoDup (dict_keys Sample.result_with_large_list) /\
  exists out : pydict,
    _sanitize_result Sample.float_repr (PDict Sample.result_with_large_list)
      = PDict out /\
    dict_get (KStr "results") out = Some (PStr "[large data omitted]") /\
    dict_get (KStr "changed") out = Some (PBool true).
Proof.
  assert (Hnd : NoDup (dict_keys Sample.result_with_large_list))
    by (apply (bool_decide_unpack _); vm_compute; exact I).
  split; [exact Hnd|].
  destruct (large_structure_replaced_checks_ordered Sample.float_repr
              Sample.result_with_large_list Hnd) as [out [Hout Hkeys]].
  exists out. split; [exact Hout|]. split.
  - destruct (Hkeys (KStr "results")
                (PList (repeat (PStr "10.0.0.1") (Z.to_nat 1000))) eq_refl)
      as [Hbig _].
    apply Hbig.
    + apply (bool_decide_unpack _). vm_compute. exact I.
    + reflexivity.
    + vm_compute. reflexivity.
  - destruct (Hkeys (KStr "changed") (PBool true) eq_refl)
      as [_ [_ [_ [_ [Hkeep _]]]]].
    apply Hkeep.
    + apply (bool_decide_unpack _). vm_compute. exact I.
    + reflexivity.
    + reflexivity.
Defined.

Lemma unknown_task_duration_null_witness :
  _task_start_times (self (Sample.fresh Sample.connected))
    !! task__uuid (_task Sample.result_ok) = None /\
  dict_get (KStr "duration")
    (_host_result Sample.float_repr Sample.connected (Sample.env_at 100 None)
       Sample.result_ok) = Some PNone /\
  wire (run_result_hook Sample.float_repr runner_on_ok (Sample.env_at 100 None)
          Sample.result_ok (Sample.fresh Sample.connected)).2 =
  [json_object [
     json_member "type" (json_string "host_ok");
     json_member "timestamp" (json_string "2024-05-01T10:00:00.000123Z");
     json_member "data" (json_object [
       json_member "host" (json_string "web1");
       json_member "task" (json_string "Install package");
       json_member "task_uuid" (json_string "abc");
       json_member "action" (json_string "package");
       json_member "changed" "true";
       json_member "duration" "null";
       json_member "result" (json_object [
         json_member "changed" "true";
         json_member "msg" (json_string "ok")])])]
   +:+ NEWLINE].
Proof.
  assert (Hnone : _task_start_times (self (Sample.fresh Sample.connected))
                    !! task__uuid (_task Sample.result_ok) = None)
    by reflexivity.
  split; [exact Hnone|].
  destruct (unknown_task_duration_null Sample.float_repr
              (Sample.fresh Sample.connected) (Sample.env_at 100 None)
              Sample.result_ok runner_on_ok Hnone)
    as [Hdur [_ [_ [_ [_ [_ [_ [Hsend _]]]]]]]].
  split; [exact Hdur|].
  rewrite Hsend. vm_compute. reflexivity.
Defined.

Lemma send_failure_absorbed_witness :
  sendall_error (Sample.env_at 100 (Some EPIPE)) = Some EPIPE /\
  _send Sample.float_repr (Sample.env_at 100 (Some EPIPE)) "host_ok"
    (Some (_result Sample.result_ok)) (Sample.fresh Sample.connected)
    = (Returns tt, Sample.fresh Sample.connected) /\
  wire (_send Sample.float_repr (Sample.env_at 101 None) "host_skipped" None
          (_send Sample.float_repr (Sample.env_at 100 (Some EPIPE)) "host_ok"
             (Some (_result Sample.result_ok))
             (Sample.fresh Sample.connected)).2).2 =
  [(json_object [
     json_member "type" (json_string "host_skipped");
     json_member "timestamp" (json_string "2024-05-01T10:00:00.000123Z");
     json_member "data" (json_object [])])
   +:+ NEWLINE].
Proof.
  assert (Herr : sendall_error (Sample.env_at 100 (Some EPIPE)) = Some EPIPE)
    by reflexivity.
  split; [exact Herr|].
  destruct (send_failure_absorbed Sample.float_repr
              (Sample.env_at 100 (Some EPIPE)) "host_ok"
              (Some (_result Sample.result_ok)) (Sample.fresh Sample.connected)
              (or_intror (ex_intro _ EPIPE Herr))) as [Hrun Hnext].
  split; [exact Hrun|].
  rewrite (Hnext (Sample.env_at 101 None) "host_skipped" None
             {| peer := "/tmp/ansible-env.sock" |}
             (json_object [
     json_member "type" (json_string "host_skipped");
     json_member "timestamp" (json_string "2024-05-01T10:00:00.000123Z");
     json_member "data" (json_object [])])
             eq_refl eq_refl eq_refl).
  reflexivity.
Defined.

(** The payload of host_task_start, as the specification lists it, is not
    what is sent: the event carries neither the action, nor the arguments,
    nor the source location, nor the handler flag. *)
Lemma host_task_start_lacks_task_fields :
  exists data : pydict,
    v2_runner_on_start Sample.float_repr (Sample.env_at 100 None)
      Sample.host1 Sample.task_abc
    = _send Sample.float_repr (Sample.env_at 100 None) "host_task_start"
        (Some data) /\
    dict_keys data = [KStr "host"; KStr "task"; KStr "task_uuid"] /\
    dict_get (KStr "action") data = None /\
    dict_get (KStr "args") data = None /\
    dict_get (KStr "path") data = None /\
    dict_get (KStr "is_handler") data = None /\
    wire (v2_runner_on_start Sample.float_repr (Sample.env_at 100 None)
            Sample.host1 Sample.task_abc (Sample.fresh Sample.connected)).2 =
    [json_object [
       json_member "type" (json_string "host_task_start");
       json_member "timestamp" (json_string "2024-05-01T10:00:00.000123Z");
       json_member "data" (json_object [
         json_member "host" (json_string "web1");
         json_member "task" (json_string "Install package");
         json_member "task_uuid" (json_string "abc")])]
     +:+ NEWLINE].
Proof.
  exists [(KStr "host", PStr "web1"); (KStr "task", PStr "Install package");
          (KStr "task_uuid", PStr "abc")].
  repeat split.
Qed.

Lemma host_task_start_payload_witness :
  _sock (self (Sample.fresh Sample.connected))
    = Some {| peer := "/tmp/ansible-env.sock" |} /\
  sendall_error (Sample.env_at 100 None) = None /\
  v2_runner_on_start Sample.float_repr (Sample.env_at 100 None)
    Sample.host1 Sample.task_abc (Sample.fresh Sample.connected) =
  (Returns tt,
   {| self := Sample.connected;
      wire := [json_object [
       json_member "type" (json_string "host_task_start");
       json_member "timestamp" (json_string "2024-05-01T10:00:00.000123Z");
       json_member "data" (json_object [
         json_member "host" (json_string "web1");
         json_member "task" (json_string "Install package");
         json_member "task_uuid" (json_string "abc")])]
               +:+ NEWLINE] |}).
Proof.
  split; [reflexivity|]. split; [reflexivity|].
  destruct (host_task_start_payload Sample.float_repr (Sample.env_at 100 None)
              Sample.host1 Sample.task_abc (Sample.fresh Sample.connected)
              {| peer := "/tmp/ansible-env.sock" |} eq_refl eq_refl)
    as [_ Hrun].
  rewrite Hrun. reflexivity.
Defined.

Lemma stats_without_start_duration_zero_witness :
  _start_time (self (Sample.fresh Sample.connected)) = None /\
  (v2_playbook_on_stats Sample.float_repr (Sample.env_at 100 None)
     Sample.stats1 (Sample.fresh Sample.connected)) =
  (Returns tt,
   {| self := Sample.connected;
      wire := [json_object [
       json_member "type" (json_string "playbook_complete");
       json_member "timestamp" (json_string "2024-05-01T10:00:00.000123Z");
       json_member "data" (json_object [
         json_member "stats" (json_object [
           json_member "web1" (json_object [
             json_member "ok" "3"; json_member "changed" "1";
             json_member "failures" "0"; json_member "unreachable" "0";
             json_member "skipped" "0"; json_member "rescued" "0";
             json_member "ignored" "0"])]);
         json_member "duration" "0"])]
               +:+ NEWLINE] |}).
Proof.
  split; [reflexivity|].
  destruct (stats_without_start_duration_zero Sample.float_repr
              (Sample.env_at 100 None) Sample.stats1
              (Sample.fresh Sample.connected) eq_refl) as [Hrun _].
  rewrite Hrun. reflexivity.
Defined.

(** ** The texts of the encoder *)

Lemma all_chars_app (p : ascii -> bool) (s t : string) :
  all_chars p (s +:+ t) = all_chars p s && all_chars p t.
Proof.
  induction s as [|c s IH]; [reflexivity|].
  change (String c s +:+ t) with (String c (s +:+ t)).
  cbn [all_chars]. rewrite IH. by destruct (p c).
Qed.

Lemma contains_app (c : ascii) (s t : string) :
  contains c (s +:+ t) = contains c s || contains c t.
Proof.
  induction s as [|a s IH]; [reflexivity|].
  change (String a s +:+ t) with (String a (s +:+ t)).
  cbn [contains]. rewrite IH. by destruct (Ascii.eqb a c).
Qed.

Lemma all_chars_not_contains (p : ascii -> bool) (c : ascii) (s : string) :
  p c = false -> all_chars p s = true -> contains c s = false.
Proof.
  intros Hc. induction s as [|a s IH]; [reflexivity|].
  cbn [all_chars contains]. intros [Ha Hs]%andb_prop.
  destruct (Ascii.eqb_spec a c) as [->|_]; [congruence | by apply IH].
Qed.

Lemma all_chars_impl (p q : ascii -> bool) (s : string) :
  (forall c, p c = true -> q c = true) ->
  all_chars p s = true -> all_chars q s = true.
Proof.
  intros Hpq. induction s as [|a s IH]; [reflexivity|].
  cbn [all_chars]. intros [Ha Hs]%andb_prop.
  by rewrite (Hpq _ Ha), (IH Hs).
Qed.

Lemma body_app (a b : string) :
  json_string_body a -> json_string_body b -> json_string_body (a +:+ b).
Proof.
  intros Ha Hb. induction Ha as [|c rest Hc _ IH|c rest Hc _ IH
                                 |h1 h2 h3 h4 rest H1 H2 H3 H4 _ IH].
  - exact Hb.
  - by apply (body_unescaped c (rest +:+ b)).
  - by apply (body_escape c (rest +:+ b)).
  - by apply (body_unicode h1 h2 h3 h4 (rest +:+ b)).
Qed.

(** Every character is written as itself, as a two-character escape or as
    a [\u] escape. *)
Lemma json_char_body (c : ascii) : json_string_body (json_char c).
Proof.
  destruct c as [[] [] [] [] [] [] [] []]; cbv;
    repeat first
      [ apply body_empty
      | apply body_unicode; [reflexivity | reflexivity | reflexivity | reflexivity |]
      | apply body_escape; [reflexivity|]
      | apply body_unescaped; [reflexivity|] ].
Qed.

Lemma json_char_no_newline (c : ascii) : contains LF (json_char c) = false.
Proof. by destruct c as [[] [] [] [] [] [] [] []]. Qed.

Lemma json_chars_body (s : string) : json_string_body (json_chars s).
Proof.
  induction s as [|c s IH]; [apply body_empty|].
  cbn [json_chars]. apply body_app; [apply json_char_body | exact IH].
Qed.

Lemma json_chars_no_newline (s : string) : contains LF (json_chars s) = false.
Proof.
  induction s as [|c s IH]; [reflexivity|].
  cbn [json_chars]. by rewrite contains_app, json_char_no_newline, IH.
Qed.

Lemma json_string_value (s : string) : json_value (json_string s).
Proof. apply (value_string (json_chars s)), json_chars_body. Qed.

Lemma json_string_no_newline (s : string) : contains LF (json_string s) = false.
Proof.
  unfold json_string. cbn [contains]. change (Ascii.eqb DQUOTE LF) with false.
  cbn iota. by rewrite contains_app, json_chars_no_newline.
Qed.

(** *** Integers *)

Lemma string_of_uint_digits (d : Decimal.uint) :
  all_chars is_digit (NilEmpty.string_of_uint d) = true.
Proof. induction d; cbn [NilEmpty.string_of_uint all_chars]; by rewrite ?IHd. Qed.

Lemma to_uint_unorm (p : positive) :
  Decimal.unorm (Pos.to_uint p) = Pos.to_uint p.
Proof.
  rewrite <- DecimalPos.Unsigned.to_of, DecimalPos.Unsigned.of_to. reflexivity.
Qed.

Lemma positive_str (p : positive) :
  exists (c : ascii) (rest : string),
    NilZero.string_of_uint (Pos.to_uint p) = String c rest /\
    is_digit c = true /\ c <> "0"%char /\ all_chars is_digit rest = true.
Proof.
  pose proof (to_uint_unorm p) as Hnorm.
  pose proof (DecimalPos.Unsigned.to_uint_nonnil p) as Hnil.
  pose proof (DecimalPos.Unsigned.to_uint_nonzero p) as Hzero.
  destruct (Pos.to_uint p) as [|u|u|u|u|u|u|u|u|u|u] eqn:Hu; [done|..];
    try (eexists _, _; cbn [NilZero.string_of_uint NilEmpty.string_of_uint];
         split; [reflexivity|]; split; [reflexivity|];
         split; [discriminate | apply string_of_uint_digits]).
  exfalso. unfold Decimal.unorm in Hnorm. cbn [Decimal.nzhead] in Hnorm.
  destruct (Decimal.nzhead u) eqn:Hh;
    try (by apply (DecimalFacts.nzhead_nonzero u u); rewrite Hh, Hnorm).
  apply Hzero. congruence.
Qed.

Lemma int_str_number (z : Z) : json_number (int_str z).
Proof.
  unfold int_str. destruct z as [|p|p]; cbn [Z.to_int NilZero.string_of_int].
  - exists "", "0", "", "". repeat split; auto. by left. by left. by left.
  - destruct (positive_str p) as [c [rest [Hs [Hc [Hz Hr]]]]].
    exists "", (String c rest), "", "". rewrite Hs.
    split; [by left|]. split; [right; by exists c, rest|].
    split; [by left|]. split; [by left|].
    cbn. by rewrite append_nil_r.
  - destruct (positive_str p) as [c [rest [Hs [Hc [Hz Hr]]]]].
    exists "-", (String c rest), "", "". rewrite Hs.
    split; [by right|]. split; [right; by exists c, rest|].
    split; [by left|]. split; [by left|].
    cbn. by rewrite append_nil_r.
Qed.

(** A number is made of digits, signs, the point and the exponent mark:
    it holds no line feed. *)
Lemma json_number_chars (s : string) :
  json_number s -> all_chars is_number_char s = true.
Proof.
  assert (Hdig : forall t, all_chars is_digit t = true ->
                           all_chars is_number_char t = true).
  { intros t. apply all_chars_impl. intros c Hc. unfold is_number_char.
    by rewrite Hc. }
  intros [minus [int [frac [exp [Hm [Hi [Hf [He ->]]]]]]]].
  rewrite !all_chars_app.
  assert (all_chars is_number_char minus = true) as -> by by destruct Hm as [->| ->].
  assert (all_chars is_number_char int = true) as ->.
  { destruct Hi as [->|[c [rest [-> [Hc [_ Hr]]]]]]; [done|].
    cbn [all_chars]. rewrite (Hdig _ Hr). unfold is_number_char. by rewrite Hc. }
  assert (all_chars is_number_char frac = true) as ->.
  { destruct Hf as [->|[ds [[_ Hd] ->]]]; [done|].
    rewrite all_chars_app, (Hdig _ Hd). done. }
  destruct He as [->|[e [sign [ds [He [Hs [[_ Hd] ->]]]]]]]; [done|].
  rewrite !all_chars_app, (Hdig _ Hd).
  by destruct He as [->| ->], Hs as [->|[->| ->]].
Qed.

Lemma json_number_no_newline (s : string) :
  json_number s -> contains LF s = false.
Proof.
  intros H. by apply (all_chars_not_contains is_number_char), json_number_chars.
Qed.

(** *** Nested values *)

Lemma pyval_nested_ind (P : pyval -> Prop) :
  P PNone ->
  (forall b, P (PBool b)) ->
  (forall z, P (PInt z)) ->
  (forall f, P (PFloat f)) ->
  (forall s, P (PStr s)) ->
  (forall items, Forall P items -> P (PList items)) ->
  (forall items, Forall (fun kv : pykey * pyval => P kv.2) items ->
                 P (PDict items)) ->
  (forall o, P (PObj o)) ->
  forall v, P v.
Proof.
  intros HNone HBool HInt HFloat HStr HList HDict HObj.
  fix IH 1. intros [|b|z|f|s|items|items|o].
  - exact HNone.
  - exact (HBool b).
  - exact (HInt z).
  - exact (HFloat f).
  - exact (HStr s).
  - apply HList. induction items as [|x items IHitems].
    + constructor.
    + constructor; [apply IH | exact IHitems].
  - apply HDict. induction items as [|[k x] items IHitems].
    + constructor.
    + constructor; [apply IH | exact IHitems].
  - exact (HObj o).
Qed.

Lemma forallb_Forall {A : Type} (f : A -> bool) (l : list A) :
  forallb f l = true -> Forall (fun x => f x = true) l.
Proof.
  induction l as [|x l IH]; [constructor|].
  cbn [forallb]. intros [Hx Hl]%andb_prop. constructor; auto.
Qed.

Lemma sequence_map_Forall {A B : Type} (f : A -> outcome B)
    (P : A -> Prop) (Q : B -> Prop) (items : list A) :
  Forall (fun x => P x -> forall t, f x = Returns t -> Q t) items ->
  Forall P items ->
  forall parts, sequence (map f items) = Returns parts -> Forall Q parts.
Proof.
  induction items as [|x items IH]; intros HPQ HP parts Hseq.
  - injection Hseq as <-. constructor.
  - apply Forall_cons in HPQ as [Hx HPQ]. apply Forall_cons in HP as [Px HP].
    cbn [map sequence] in Hseq. destruct (f x) as [t|e] eqn:Hfx; [|done].
    destruct (sequence (map f items)) as [ts|e] eqn:Hts; [|done].
    injection Hseq as <-. constructor; [by apply Hx | by apply IH].
Qed.

Lemma sequence_map_total {A B : Type} (f : A -> outcome B) (P : A -> Prop)
    (items : list A) :
  Forall (fun x => P x -> exists t, f x = Returns t) items ->
  Forall P items ->
  exists parts, sequence (map f items) = Returns parts.
Proof.
  induction items as [|x items IH]; intros HPQ HP; [by exists []|].
  apply Forall_cons in HPQ as [Hx HPQ]. apply Forall_cons in HP as [Px HP].
  destruct (Hx Px) as [t Ht]. destruct (IH HPQ HP) as [ts Hts].
  exists (t :: ts). cbn [map sequence]. by rewrite Ht, Hts.
Qed.

Lemma sequence_map_nil {A B : Type} (f : A -> outcome B) (items : list A) :
  sequence (map f items) = Returns [] -> items = [].
Proof.
  destruct items as [|x items]; [done|]. cbn [map sequence].
  destruct (f x); [|done]. by destruct (sequence (map f items)).
Qed.

Lemma join_no_newline (parts : list string) :
  Forall (fun t => contains LF t = false) parts ->
  contains LF (join ", " parts) = false.
Proof.
  induction 1 as [|t parts Ht _ IH]; [reflexivity|].
  destruct parts as [|t' parts]; [exact Ht|].
  change (join ", " (t :: t' :: parts))
    with (t +:+ ", " +:+ join ", " (t' :: parts)).
  by rewrite !contains_app, Ht, IH.
Qed.

Lemma join_elements (parts : list string) :
  parts <> [] -> Forall json_value parts -> json_elements (join ", " parts).
Proof.
  intros Hne Hall. induction Hall as [|t parts Ht Hall IH]; [done|].
  destruct parts as [|t' parts]; [by apply elements_last|].
  change (join ", " (t :: t' :: parts))
    with (t +:+ "," +:+ " " +:+ join ", " (t' :: parts)).
  apply elements_more; [exact Ht | reflexivity | by apply IH].
Qed.

Lemma join_members (parts : list string) :
  parts <> [] -> Forall json_member_text parts -> json_members (join ", " parts).
Proof.
  intros Hne Hall. induction Hall as [|t parts Ht Hall IH]; [done|].
  destruct Ht as [key [v [Hkey [Hv ->]]]].
  destruct parts as [|t' parts].
  - cbn [join]. apply (members_last key " " v); [exact Hkey | reflexivity | exact Hv].
  - change (join ", " ((quoted key +:+ ": " +:+ v) :: t' :: parts))
      with ((quoted key +:+ ":" +:+ " " +:+ v) +:+ "," +:+ " "
            +:+ join ", " (t' :: parts)).
    rewrite !append_assoc.
    apply (members_more key " " v " ");
      [exact Hkey | reflexivity | exact Hv | reflexivity | by apply IH].
Qed.

(** *** What the encoder writes *)

Section EncoderProps.

Variable float_repr : Q -> string.

(** The text of a finite float is a number. *)
Hypothesis float_repr_number : forall q, json_number (float_repr q).

Lemma json_float_no_newline (f : pyfloat) :
  contains LF (json_float float_repr f) = false.
Proof.
  destruct f as [q| |[]]; try reflexivity.
  apply json_number_no_newline, float_repr_number.
Qed.

Lemma json_key_string (k : pykey) (ks : string) :
  json_key float_repr k = Returns ks -> exists s, ks = json_string s.
Proof.
  destruct k as [s|z|f|[]| |items]; cbn [json_key]; intros H;
    try discriminate H; injection H as <-; by eexists.
Qed.

Lemma json_key_text (k : pykey) (ks : string) :
  json_key float_repr k = Returns ks ->
  exists key, json_string_body key /\ ks = quoted key.
Proof.
  intros [s ->]%json_key_string. exists (json_chars s).
  split; [apply json_chars_body | reflexivity].
Qed.

Lemma json_key_no_newline (k : pykey) (ks : string) :
  json_key float_repr k = Returns ks -> contains LF ks = false.
Proof. intros [s ->]%json_key_string. apply json_string_no_newline. Qed.

Lemma json_encode_no_newline (v : pyval) :
  forall t, json_encode float_repr v = Returns t -> contains LF t = false.
Proof.
  induction v as [|b|z|f|s|items IH|items IH|o] using pyval_nested_ind;
    intros t Ht; cbn [json_encode] in Ht.
  - by injection Ht as <-.
  - destruct b; by injection Ht as <-.
  - injection Ht as <-. apply json_number_no_newline, int_str_number.
  - injection Ht as <-. apply json_float_no_newline.
  - injection Ht as <-. apply json_string_no_newline.
  - destruct (sequence (map (json_encode float_repr) items)) as [parts|e] eqn:Hseq;
      [|done].
    injection Ht as <-. unfold json_array.
    rewrite !contains_app, join_no_newline; [reflexivity|].
    apply (sequence_map_Forall (json_encode float_repr) (fun _ => True)
             (fun t => contains LF t = false) items); [| |exact Hseq].
    + eapply Forall_impl; [exact IH|]. intros x Hx _. exact Hx.
    + by apply Forall_true.
  - match type of Ht with
    | match sequence (map ?f items) with _ => _ end = _ =>
        destruct (sequence (map f items)) as [parts|e] eqn:Hseq; [|done];
        pose proof (sequence_map_Forall f (fun _ => True)
                      (fun t => contains LF t = false) items) as Hall
    end.
    injection Ht as <-. unfold json_object.
    rewrite !contains_app, join_no_newline; [reflexivity|].
    apply Hall; [| by apply Forall_true | exact Hseq].
    eapply Forall_impl; [exact IH|]. intros [k x] Hx _ part. cbn [snd] in Hx.
    destruct (json_key float_repr k) as [ks|e] eqn:Hk; [|done].
    destruct (json_encode float_repr x) as [tx|e] eqn:Hex; [|done].
    intros H. injection H as <-.
    by rewrite !contains_app, (json_key_no_newline _ _ Hk), (Hx _ eq_refl).
  - injection Ht as <-. apply json_string_no_newline.
Qed.

Lemma json_encode_value (v : pyval) :
  forall t, finite_floats v = true -> json_encode float_repr v = Returns t ->
            json_value t.
Proof.
  induction v as [|b|z|f|s|items IH|items IH|o] using pyval_nested_ind;
    intros t Hfin Ht; cbn [json_encode] in Ht.
  - injection Ht as <-. constructor.
  - destruct b; injection Ht as <-; constructor.
  - injection Ht as <-. apply value_number, int_str_number.
  - injection Ht as <-. destruct f as [q| |neg]; [|done|done].
    apply value_number, float_repr_number.
  - injection Ht as <-. apply json_string_value.
  - destruct (sequence (map (json_encode float_repr) items)) as [parts|e] eqn:Hseq;
      [|done].
    injection Ht as <-. unfold json_array.
    destruct parts as [|p parts]; [apply value_empty_array|].
    apply value_array, join_elements; [done|].
    apply (sequence_map_Forall (json_encode float_repr)
             (fun x => finite_floats x = true) json_value items);
      [| |exact Hseq].
    + eapply Forall_impl; [exact IH|]. intros x Hx Hf t'. by apply Hx.
    + by apply forallb_Forall.
  - match type of Ht with
    | match sequence (map ?f items) with _ => _ end = _ =>
        destruct (sequence (map f items)) as [parts|e] eqn:Hseq; [|done];
        pose proof (sequence_map_Forall f
                      (fun kv : pykey * pyval => finite_floats kv.2 = true)
                      json_member_text items) as Hall
    end.
    injection Ht as <-. unfold json_object.
    destruct parts as [|p parts]; [apply value_empty_object|].
    apply value_object, join_members; [done|].
    apply Hall; [| |exact Hseq].
    + eapply Forall_impl; [exact IH|]. intros [k x] Hx Hf part. cbn [snd] in *.
      destruct (json_key float_repr k) as [ks|e] eqn:Hk; [|done].
      destruct (json_encode float_repr x) as [tx|e] eqn:Hex; [|done].
      intros H. injection H as <-.
      destruct (json_key_text _ _ Hk) as [key [Hkey ->]].
      exists key, tx. split; [exact Hkey|]. split; [by apply Hx | reflexivity].
    + cbn [finite_floats] in Hfin. apply forallb_Forall in Hfin.
      eapply Forall_impl; [exact Hfin|]. by intros [k x].
  - injection Ht as <-. apply json_string_value.
Qed.

Lemma json_encode_total (v : pyval) :
  basic_keys v = true -> exists t, json_encode float_repr v = Returns t.
Proof.
  induction v as [|b|z|f|s|items IH|items IH|o] using pyval_nested_ind;
    intros Hkeys; cbn [json_encode]; try (destruct b); eauto.
  - destruct (sequence_map_total (json_encode float_repr)
                (fun x => basic_keys x = true) items) as [parts ->]; eauto.
    by apply forallb_Forall.
  - match goal with
    | |- context [sequence (map ?f items)] =>
        destruct (sequence_map_total f
                    (fun kv : pykey * pyval =>
                       basic_key kv.1 && basic_keys kv.2 = true) items)
          as [parts ->]; eauto
    end.
    + eapply Forall_impl; [exact IH|]. intros [k x] Hx [Hk Hv]%andb_prop.
      cbn [fst snd] in *. destruct (Hx Hv) as [tx ->].
      destruct k as [s|z|f|[]| |l]; try done; cbn [json_key]; eauto.
    + cbn [basic_keys] in Hkeys. apply forallb_Forall in Hkeys.
      eapply Forall_impl; [exact Hkeys|]. by intros [k x].
Qed.

End EncoderProps.

(** ** The envelopes of the hooks *)

Section Envelopes.

Variable float_repr : Q -> string.

Lemma invoke_run (c : hook_call) (env : Env) (st : State) :
  invoke float_repr c env st =
  match hook_event float_repr c env (self st) with
  | Some (event_type, data) =>
      _send float_repr env event_type (Some data)
        {| self := hook_state c env (self st); wire := wire st |}
  | None => (Returns tt, st)
  end.
Proof.
  destruct st as [s w], c as [| | | | | | |h result|result]; try reflexivity.
  - by destruct h.
  - cbn [invoke hook_event self]. unfold v2_on_file_diff.
    by destruct (truthy (dict_get_default (KStr "diff") PNone (_result result))).
Qed.

Lemma hook_state_sock (c : hook_call) (env : Env) (s : CallbackModule) :
  _sock (hook_state c env s) = _sock s.
Proof. by destruct c. Qed.

Lemma hook_event_kind (c : hook_call) (env : Env) (s : CallbackModule)
    (event_type : string) (data : pydict) :
  hook_event float_repr c env s = Some (event_type, data) ->
  event_type ∈ EventKind.
Proof.
  unfold EventKind.
  destruct c as [| | | | | | |h result|result]; cbn [hook_event];
    try (destruct h; cbn [result_event_type]);
    try (destruct (truthy (dict_get_default (KStr "diff") PNone (_result result)));
         [|done]);
    intros H; injection H as <- _; rewrite !elem_of_cons; tauto.
Qed.

Lemma data_or_empty (data : pydict) :
  (if truthy (PDict data) then data else []) = data.
Proof. by destruct data. Qed.

(** The text of an envelope, from the text of its data. *)
Lemma envelope_dumps (env : Env) (event_type : string) (data : pydict) :
  json_dumps float_repr (envelope env event_type (Some data)) =
  match json_encode float_repr (PDict data) with
  | Returns dtext =>
      Returns (json_object [
        json_member "type" (json_string event_type);
        json_member "timestamp" (json_string (utcnow_isoformat env +:+ "Z"));
        json_member "data" dtext])
  | Raises e => Raises e
  end.
Proof.
  unfold json_dumps, envelope. rewrite data_or_empty.
  remember (PDict data) as d. cbn [json_encode map sequence json_key].
  by destruct (json_encode float_repr d).
Qed.

Lemma envelope_text_no_newline (event_type timestamp dtext : string) :
  contains LF dtext = false ->
  contains LF (json_object [
    json_member "type" (json_string event_type);
    json_member "timestamp" (json_string timestamp);
    json_member "data" dtext]) = false.
Proof.
  intros Hd. unfold json_object.
  rewrite !contains_app, join_no_newline; [reflexivity|].
  unfold json_member. repeat constructor;
    by rewrite !contains_app, !json_string_no_newline, ?Hd.
Qed.

Lemma envelope_text_object (event_type timestamp dtext : string) :
  json_value dtext ->
  json_object_text (json_object [
    json_member "type" (json_string event_type);
    json_member "timestamp" (json_string timestamp);
    json_member "data" dtext]).
Proof.
  intros Hd. split; [|by eexists].
  unfold json_object. apply value_object, join_members; [done|].
  unfold json_member.
  repeat constructor;
    (eexists _, _; split; [apply json_chars_body|]; split; [|reflexivity]);
    [apply json_string_value | apply json_string_value | exact Hd].
Qed.

End Envelopes.

(** ** Texts that are not JSON *)

Scheme json_value_mut := Minimality for json_value Sort Prop
  with json_elements_mut := Minimality for json_elements Sort Prop
  with json_members_mut := Minimality for json_members Sort Prop.

Lemma scan_app (st : scan_state) (a b : string) :
  scan st (a +:+ b) =
  match scan st a with
  | Some st' => scan st' b
  | None => None
  end.
Proof.
  revert st. induction a as [|c a IH]; intros st; [reflexivity|].
  change (String c a +:+ b) with (String c (a +:+ b)). cbn [scan].
  destruct (scan_char st c); [apply IH | reflexivity].
Qed.

Lemma scan_all_outside (p : ascii -> bool) (s : string) :
  (forall c, p c = true -> is_outside_char c = true /\ Ascii.eqb c DQUOTE = false) ->
  all_chars p s = true -> scan Outside s = Some Outside.
Proof.
  intros Hp. induction s as [|c s IH]; [reflexivity|].
  cbn [all_chars scan scan_char]. intros [Hc Hs]%andb_prop.
  destruct (Hp c Hc) as [-> ->]. by apply IH.
Qed.

Lemma number_char_outside (c : ascii) :
  is_number_char c = true ->
  is_outside_char c = true /\ Ascii.eqb c DQUOTE = false.
Proof. by destruct c as [[] [] [] [] [] [] [] []]. Qed.

Lemma ws_char_outside (c : ascii) :
  is_ws c = true -> is_outside_char c = true /\ Ascii.eqb c DQUOTE = false.
Proof. by destruct c as [[] [] [] [] [] [] [] []]. Qed.

Lemma scan_number (s : string) : json_number s -> scan Outside s = Some Outside.
Proof.
  intros H. apply (scan_all_outside is_number_char);
    [apply number_char_outside | by apply json_number_chars].
Qed.

Lemma scan_ws (w : string) : json_ws w -> scan Outside w = Some Outside.
Proof. apply scan_all_outside, ws_char_outside. Qed.

Lemma unescaped_in_string (c : ascii) :
  is_unescaped c = true -> scan_char InString c = Some InString.
Proof. by destruct c as [[] [] [] [] [] [] [] []]. Qed.

Lemma hex_in_string (c : ascii) :
  is_hex_digit c = true -> scan_char InString c = Some InString.
Proof. by destruct c as [[] [] [] [] [] [] [] []]. Qed.

Lemma scan_body (body : string) :
  json_string_body body -> scan InString body = Some InString.
Proof.
  induction 1 as [|c rest Hc _ IH|c rest Hc _ IH
                  |h1 h2 h3 h4 rest H1 H2 H3 H4 _ IH]; [reflexivity| | |].
  - cbn [scan]. by rewrite (unescaped_in_string _ Hc).
  - exact IH.
  - change (scan InString (String h1 (String h2 (String h3 (String h4 rest))))
            = Some InString).
    cbn [scan].
    by rewrite (hex_in_string _ H1), (hex_in_string _ H2),
      (hex_in_string _ H3), (hex_in_string _ H4).
Qed.

Lemma scan_quoted (body : string) :
  json_string_body body -> scan Outside (quoted body) = Some Outside.
Proof.
  intros Hb. unfold quoted. cbn [scan].
  change (scan_char Outside DQUOTE) with (Some InString). cbn iota.
  by rewrite scan_app, (scan_body _ Hb).
Qed.

(** A JSON text passes the scan. *)
Lemma scan_sound (s : string) : json_value s -> scan Outside s = Some Outside.
Proof.
  apply (json_value_mut
           (fun s => scan Outside s = Some Outside)
           (fun s => scan Outside s = Some Outside)
           (fun s => scan Outside s = Some Outside)); try reflexivity.
  - apply scan_number.
  - apply scan_quoted.
  - intros elements _ IH. rewrite scan_app.
    change (scan Outside "[") with (Some Outside). cbv beta iota.
    by rewrite scan_app, IH.
  - intros members _ IH. rewrite scan_app.
    change (scan Outside "{") with (Some Outside). cbv beta iota.
    by rewrite scan_app, IH.
  - auto.
  - intros v ws rest _ Hv Hws _ Hrest.
    rewrite scan_app, Hv. cbv beta iota. rewrite scan_app.
    change (scan Outside ",") with (Some Outside). cbv beta iota.
    by rewrite scan_app, (scan_ws _ Hws).
  - intros key ws v Hkey Hws _ Hv.
    rewrite scan_app, (scan_quoted _ Hkey). cbv beta iota. rewrite scan_app.
    change (scan Outside ":") with (Some Outside). cbv beta iota.
    by rewrite scan_app, (scan_ws _ Hws).
  - intros key ws v ws' rest Hkey Hws _ Hv Hws' _ Hrest.
    rewrite scan_app, (scan_quoted _ Hkey). cbv beta iota. rewrite scan_app.
    change (scan Outside ":") with (Some Outside). cbv beta iota.
    rewrite scan_app, (scan_ws _ Hws). cbv beta iota.
    rewrite scan_app, Hv. cbv beta iota. rewrite scan_app.
    change (scan Outside ",") with (Some Outside). cbv beta iota.
    by rewrite scan_app, (scan_ws _ Hws').
Qed.

Lemma scan_json_string (s : string) : scan Outside (json_string s) = Some Outside.
Proof. apply (scan_quoted (json_chars s)), json_chars_body. Qed.

Lemma forallb_false_Exists {A : Type} (f : A -> bool) (l : list A) :
  forallb f l = false -> Exists (fun x => f x = false) l.
Proof.
  induction l as [|x l IH]; [done|]. cbn [forallb].
  destruct (f x) eqn:Hx; [|by left]. intros H. right. by apply IH.
Qed.

Lemma sequence_map_raises {A B : Type} (f : A -> outcome B) (items : list A) :
  Exists (fun x => exists e, f x = Raises e) items ->
  exists e, sequence (map f items) = Raises e.
Proof.
  induction 1 as [x items [e He]|x items _ [e IH]]; cbn [map sequence].
  - rewrite He. by exists e.
  - destruct (f x) as [t|e']; [|by exists e']. rewrite IH. by exists e.
Qed.

Lemma sequence_map_Forall2 {A B : Type} (f : A -> outcome B) (items : list A) :
  forall parts, sequence (map f items) = Returns parts ->
                Forall2 (fun x t => f x = Returns t) items parts.
Proof.
  induction items as [|x items IH]; intros parts Hseq.
  - injection Hseq as <-. constructor.
  - cbn [map sequence] in Hseq. destruct (f x) as [t|e] eqn:Hfx; [|done].
    destruct (sequence (map f items)) as [ts|e]; [|done].
    injection Hseq as <-. constructor; [exact Hfx | by apply IH].
Qed.

Lemma join_scan {A : Type} (g : A -> bool) (items : list A) (parts : list string) :
  Forall2 (fun x t => scan Outside t = if g x then Some Outside else None)
          items parts ->
  scan Outside (join ", " parts) = if forallb g items then Some Outside else None.
Proof.
  induction 1 as [|x t items parts Hx Hrest IH]; [reflexivity|].
  cbn [forallb]. destruct parts as [|t' parts].
  - inversion Hrest; subst. cbn [join forallb]. rewrite Hx.
    by destruct (g x).
  - change (join ", " (t :: t' :: parts))
      with (t +:+ ", " +:+ join ", " (t' :: parts)).
    rewrite !scan_app, Hx. destruct (g x); [|reflexivity]. cbn. exact IH.
Qed.

Lemma Forall_Exists_both {A : Type} (P Q : A -> Prop) (l : list A) :
  Forall P l -> Exists Q l -> Exists (fun x => P x /\ Q x) l.
Proof.
  intros HP HQ. induction HQ as [x l Hx|x l _ IH];
    apply Forall_cons in HP as [Px HP]; [by left | right; by apply IH].
Qed.

Lemma Forall2_with_Forall {A B : Type} (P : A -> Prop) (R R' : A -> B -> Prop)
    (l : list A) (k : list B) :
  (forall x y, P x -> R x y -> R' x y) ->
  Forall P l -> Forall2 R l k -> Forall2 R' l k.
Proof.
  intros Himpl HP HR. induction HR as [|x y l k Hxy _ IH]; [constructor|].
  apply Forall_cons in HP as [Px HP]. constructor; [by apply Himpl | by apply IH].
Qed.

Section EncoderFailures.

Variable float_repr : Q -> string.

(** The encoder raises as soon as a key of a mapping, at any depth, is one
    it refuses. *)
Lemma json_encode_raises (v : pyval) :
  basic_keys v = false -> exists e, json_encode float_repr v = Raises e.
Proof.
  induction v as [|b|z|f|s|items IH|items IH|o] using pyval_nested_ind;
    intros Hkeys; try discriminate Hkeys; cbn [basic_keys] in Hkeys;
    apply forallb_false_Exists in Hkeys;
    pose proof (Forall_Exists_both _ _ _ IH Hkeys) as Hboth;
    cbn [json_encode].
  - destruct (sequence_map_raises (json_encode float_repr) items) as [e ->];
      [|by exists e].
    eapply Exists_impl; [exact Hboth|]. intros x [Hx Hf]. by apply Hx.
  - match goal with
    | |- context [sequence (map ?f items)] =>
        destruct (sequence_map_raises f items) as [e ->]; [|by exists e]
    end.
    eapply Exists_impl; [exact Hboth|]. intros [k x] [Hx Hf]. cbn [snd] in Hx.
    destruct k as [s|z|f|[]| |l]; cbn [json_key basic_key andb] in *;
      try (destruct (Hx Hf) as [e ->]; by exists e).
    by eexists.
Qed.

Hypothesis float_repr_number : forall q, json_number (float_repr q).

(** The text of a value passes the scan exactly when no float of the value
    is NaN or an infinity. *)
Lemma json_encode_scan (v : pyval) :
  forall t, json_encode float_repr v = Returns t ->
            scan Outside t = if finite_floats v then Some Outside else None.
Proof.
  induction v as [|b|z|f|s|items IH|items IH|o] using pyval_nested_ind;
    intros t Ht; cbn [json_encode] in Ht.
  - by injection Ht as <-.
  - destruct b; by injection Ht as <-.
  - injection Ht as <-. apply scan_number, int_str_number.
  - injection Ht as <-. destruct f as [q| |[]]; try reflexivity.
    apply scan_number, float_repr_number.
  - injection Ht as <-. apply scan_json_string.
  - destruct (sequence (map (json_encode float_repr) items)) as [parts|e] eqn:Hseq;
      [|done].
    injection Ht as <-. apply sequence_map_Forall2 in Hseq.
    unfold json_array. rewrite scan_app.
    change (scan Outside "[") with (Some Outside). cbv beta iota.
    rewrite scan_app, (join_scan finite_floats items parts).
    + cbn [finite_floats]. by destruct (forallb finite_floats items).
    + eapply Forall2_with_Forall; [|exact IH|exact Hseq].
      intros x y Hx Hxy. by apply Hx.
  - match type of Ht with
    | match sequence (map ?f items) with _ => _ end = _ =>
        destruct (sequence (map f items)) as [parts|e] eqn:Hseq; [|done]
    end.
    injection Ht as <-. apply sequence_map_Forall2 in Hseq.
    unfold json_object. rewrite scan_app.
    change (scan Outside "{") with (Some Outside). cbv beta iota.
    rewrite scan_app,
      (join_scan (fun kv : pykey * pyval => let '(_, x) := kv in finite_floats x)
         items parts).
    + cbn [finite_floats].
      by destruct (forallb (fun kv : pykey * pyval =>
                              let '(_, x) := kv in finite_floats x) items).
    + eapply Forall2_with_Forall; [|exact IH|exact Hseq].
      intros [k x] part Hx Hpart. cbn [snd] in Hx. cbv beta iota in Hpart.
      destruct (json_key float_repr k) as [ks|e] eqn:Hk; [|done].
      destruct (json_encode float_repr x) as [tx|e] eqn:Hex; [|done].
      injection Hpart as <-.
      destruct (json_key_string float_repr _ _ Hk) as [s ->].
      rewrite scan_app, scan_json_string. cbv beta iota. rewrite scan_app.
      change (scan Outside ": ") with (Some Outside). cbv beta iota.
      by apply Hx.
  - injection Ht as <-. apply scan_json_string.
Qed.

(** The text of an envelope fails the scan when the text of its data
    does. *)
Lemma envelope_text_scan (event_type timestamp dtext : string) :
  scan Outside dtext = None ->
  scan Outside (json_object [
    json_member "type" (json_string event_type);
    json_member "timestamp" (json_string timestamp);
    json_member "data" dtext]) = None.
Proof.
  intros Hd. unfold json_object, json_member. cbn [join].
  rewrite scan_app. change (scan Outside "{") with (Some Outside).
  cbv beta iota.
  rewrite !append_assoc.
  repeat (rewrite scan_app, ?scan_json_string; cbv beta iota;
          try change (scan Outside ": ") with (Some Outside);
          try change (scan Outside ", ") with (Some Outside);
          cbv beta iota).
  by rewrite ?Hd.
Qed.

End EncoderFailures.

(** ** Claim on the envelopes *)

Section EnvelopeClaims.

Variable float_repr : Q -> string.

Hypothesis float_repr_number : forall q, json_number (float_repr q).

(** C9 (amended).  Every hook returns normally, and the type of the event
    it builds is one of the event kinds.  Serialization of the data succeeds
    exactly when every mapping key in it, at any depth, is a string, an
    integer, a float, a boolean or None; such keys are written as strings,
    and a value that is no JSON type is written as the string [str] gives.
    A key of any other type, a tuple, is not coerced: the encoder raises
    before anything is written and the event is dropped.  The text of an
    envelope is an object with exactly the members type, timestamp and data,
    in this order; it holds no line feed; the timestamp is the clock text of
    the send with the suffix Z; and it is well-formed JSON exactly when no
    float of the data is NaN or an infinity.  When the plugin is connected
    and the write completes, the hook adds to the stream that text followed
    by one line feed, and a hook whose write completes adds at most this
    one line.  What a failing write leaves on the stream is not
    described. *)
Theorem envelope_line_well_formed (c : hook_call) (env : Env) (st : State) :
  let st' := (invoke float_repr c env st).2 in
  let line_of (event_type dtext : string) : string :=
    json_object [
      json_member "type" (json_string event_type);
      json_member "timestamp" (json_string (utcnow_isoformat env +:+ "Z"));
      json_member "data" dtext] in
  (invoke float_repr c env st).1 = Returns tt /\
  (forall event_type data,
     hook_event float_repr c env (self st) = Some (event_type, data) ->
     event_type ∈ EventKind /\
     ((exists dtext, json_encode float_repr (PDict data) = Returns dtext) <->
      basic_keys (PDict data) = true) /\
     (basic_keys (PDict data) = false ->
      (exists e, json_dumps float_repr (envelope env event_type (Some data))
                 = Raises e) /\
      wire st' = wire st) /\
     (forall dtext : string,
        json_encode float_repr (PDict data) = Returns dtext ->
        json_dumps float_repr (envelope env event_type (Some data))
          = Returns (line_of event_type dtext) /\
        contains LF (line_of event_type dtext) = false /\
        (json_object_text (line_of event_type dtext) <->
         finite_floats (PDict data) = true) /\
        forall sock : socket,
          _sock (self st) = Some sock -> sendall_error env = None ->
          wire st' = wire st ++ [line_of event_type dtext +:+ NEWLINE])) /\
  (sendall_error env = None ->
   wire st' = wire st \/
   exists (event_type : string) (data : pydict) (dtext : string),
     hook_event float_repr c env (self st) = Some (event_type, data) /\
     json_encode float_repr (PDict data) = Returns dtext /\
     wire st' = wire st ++ [line_of event_type dtext +:+ NEWLINE]) /\
  (forall o : pyobj,
     json_encode float_repr (PObj o) = Returns (json_string (obj_str o))).
Proof.
  intros st' line_of. subst st' line_of. cbv beta. rewrite invoke_run.
  split.
  { destruct (hook_event float_repr c env (self st)) as [[ty data]|];
      [apply _send_returns | reflexivity]. }
  split.
  { intros ty data Hev. rewrite Hev, _send_run. cbn [snd self wire].
    rewrite hook_state_sock, envelope_dumps.
    split; [by apply (hook_event_kind float_repr c env (self st) ty data)|].
    split.
    { split; [|apply json_encode_total].
      intros [dtext Henc]. destruct (basic_keys (PDict data)) eqn:Hkeys; [done|].
      destruct (json_encode_raises float_repr _ Hkeys) as [e He]. congruence. }
    split.
    { intros Hkeys. destruct (json_encode_raises float_repr _ Hkeys) as [e ->].
      split; [by exists e|]. by destruct (_sock (self st)). }
    intros dtext Henc. rewrite Henc. split; [reflexivity|].
    split.
    { apply envelope_text_no_newline.
      by apply (json_encode_no_newline float_repr float_repr_number (PDict data)). }
    split.
    { split.
      - intros [Hval _]. apply scan_sound in Hval.
        pose proof (json_encode_scan float_repr float_repr_number _ _ Henc)
          as Hscan.
        destruct (finite_floats (PDict data)); [done|].
        rewrite (envelope_text_scan _ _ _ Hscan) in Hval. discriminate Hval.
      - intros Hfin. apply envelope_text_object.
        by apply (json_encode_value float_repr float_repr_number (PDict data)). }
    intros sock Hsock Hok. by rewrite Hsock, Hok. }
  split; [|reflexivity].
  intros Hok.
  destruct (hook_event float_repr c env (self st)) as [[ty data]|] eqn:Hev;
    [|by left].
  rewrite _send_run. cbn [snd self wire]. rewrite hook_state_sock.
  destruct (_sock (self st)) as [sock|]; [|by left].
  rewrite envelope_dumps.
  destruct (json_encode float_repr (PDict data)) as [dtext|e] eqn:Henc;
    [|by left].
  rewrite Hok. right. by exists ty, data, dtext.
Qed.

End EnvelopeClaims.

(** The sample float text is a number. *)
Lemma digit_is_digit (d : Z) :
  0 <= d <= 9 -> Sample.digit d <> "" /\ all_chars is_digit (Sample.digit d) = true.
Proof.
  intros Hd. split; [done|].
  assert (H : d = 0 \/ d = 1 \/ d = 2 \/ d = 3 \/ d = 4 \/ d = 5 \/ d = 6
              \/ d = 7 \/ d = 8 \/ d = 9) by lia.
  repeat (destruct H as [->|H]; [reflexivity|]). by subst.
Qed.

Lemma natural_str_int (n : Z) : 0 <= n -> json_int (int_str n).
Proof.
  intros Hn. unfold int_str. destruct n as [|p|p]; [by left| |lia].
  cbn [Z.to_int NilZero.string_of_int].
  destruct (positive_str p) as [c [rest [-> H]]]. right. by exists c, rest.
Qed.

Lemma sample_float_repr_number (q : Q) : json_number (Sample.float_repr q).
Proof.
  unfold Sample.float_repr.
  set (k := hundredths q). set (a := Z.abs k).
  assert (Ha : 0 <= a) by apply Z.abs_nonneg.
  assert (H1 : 0 <= a mod 100 / 10 <= 9).
  { pose proof (Z.mod_pos_bound a 100 ltac:(lia)).
    split; [apply Z.div_pos; lia|].
    apply Z.lt_succ_r, Z.div_lt_upper_bound; lia. }
  assert (H2 : 0 <= a mod 10 <= 9).
  { pose proof (Z.mod_pos_bound a 10 ltac:(lia)). lia. }
  exists (if k <? 0 then "-" else ""), (int_str (a / 100)),
         ("." +:+ (if a mod 10 =? 0 then Sample.digit (a mod 100 / 10)
                   else Sample.digit (a mod 100 / 10) +:+ Sample.digit (a mod 10))),
         "".
  split; [destruct (k <? 0); auto|].
  split; [apply natural_str_int, Z.div_pos; lia|].
  split.
  - right. eexists. split; [|reflexivity].
    destruct (a mod 10 =? 0); [by apply digit_is_digit|].
    split; [by destruct (digit_is_digit _ H1)|].
    rewrite all_chars_app.
    by rewrite (proj2 (digit_is_digit _ H1)), (proj2 (digit_is_digit _ H2)).
  - split; [by left|]. by rewrite append_nil_r.
Qed.

(** The claim on the envelopes, as stated, fails twice over.  The diff of
    the first result has a tuple as key: the encoder raises, and the
    file_diff event of a connected plugin whose socket works is dropped.
    The second result carries a float that is not a number: the line goes
    out, and it is not a JSON text. *)
Lemma envelope_dropped_or_not_json :
  (dict_get (KStr "diff") (_result Sample.result_tuple_key)
     = Some (PDict [(KTuple [1; 2], PStr "x")]) /\
   json_dumps Sample.float_repr
     (envelope (Sample.env_at 100 None) "file_diff"
        (Some [(KStr "host", PStr "web1");
               (KStr "task", PStr "Install package");
               (KStr "diff", PDict [(KTuple [1; 2], PStr "x")])]))
   = Raises (TypeError "keys must be str, int, float, bool or None, not tuple") /\
   invoke Sample.float_repr (on_file_diff Sample.result_tuple_key)
     (Sample.env_at 100 None) (Sample.fresh Sample.connected)
   = (Returns tt, Sample.fresh Sample.connected)) /\
  (let line :=
     json_object [
       json_member "type" (json_string "host_ok");
       json_member "timestamp" (json_string "2024-05-01T10:00:00.000123Z");
       json_member "data" (json_object [
         json_member "host" (json_string "web1");
         json_member "task" (json_string "Install package");
         json_member "task_uuid" (json_string "abc");
         json_member "action" (json_string "package");
         json_member "changed" "false";
         json_member "duration" "null";
         json_member "result" (json_object [
           json_member "changed" "false";
           json_member "rate" "NaN"])])] in
   wire (invoke Sample.float_repr (runner_result runner_on_ok Sample.result_nan)
           (Sample.env_at 100 None) (Sample.fresh Sample.connected)).2
     = [line +:+ NEWLINE] /\
   ~ json_value line).
Proof.
  split; [repeat split|]. intros line. split; [reflexivity|].
  intros Hval. apply scan_sound in Hval. vm_compute in Hval. discriminate Hval.
Qed.

Lemma envelope_line_well_formed_witness :
  (forall q, json_number (Sample.float_repr q)) /\
  let line :=
    json_object [
      json_member "type" (json_string "host_ok");
      json_member "timestamp" (json_string "2024-05-01T10:00:00.000123Z");
      json_member "data" (json_object [
        json_member "host" (json_string "web1");
        json_member "task" (json_string "Install package");
        json_member "task_uuid" (json_string "abc");
        json_member "action" (json_string "package");
        json_member "changed" "true";
        json_member "duration" "2.34";
        json_member "result" (json_object [
          json_member "changed" "true";
          json_member "msg" (json_string "ok")])])] in
  wire (invoke Sample.float_repr (runner_result runner_on_ok Sample.result_ok)
          (Sample.env_at (10234 # 100) None) (Sample.fresh Sample.started)).2
    = [line +:+ NEWLINE] /\
  contains LF line = false /\
  json_object_text line.
Proof.
  split; [exact sample_float_repr_number|].
  intros line.
  destruct (envelope_line_well_formed Sample.float_repr sample_float_repr_number
              (runner_result runner_on_ok Sample.result_ok)
              (Sample.env_at (10234 # 100) None) (Sample.fresh Sample.started))
    as [_ [Hevent _]].
  destruct (Hevent _ _ eq_refl) as [_ [_ [_ Htext]]].
  destruct (Htext _ eq_refl) as [_ [Hnl [Hjson Hwire]]].
  split; [exact (Hwire _ eq_refl eq_refl)|]. split; [exact Hnl|].
  exact (proj2 Hjson eq_refl).
Defined.

(** Scenario A of the specification: a result 2.34 seconds after the start
    of its task has the duration 2.34. *)
Example duration_scenario_A :
  dict_get (KStr "duration")
    (_host_result Sample.float_repr Sample.started
       (Sample.env_at (10234 # 100) None) Sample.result_ok)
  = Some (PFloat (FFinite (117 # 50))).
Proof. reflexivity. Qed.

(** ** Further properties: the connection over a run *)

Section Runs.

Variable float_repr : Q -> string.

Lemma invoke_self (c : hook_call) (env : Env) (st : State) :
  self (invoke float_repr c env st).2 = hook_state c env (self st).
Proof.
  rewrite invoke_run.
  destruct (hook_event float_repr c env (self st)) as [[ty data]|] eqn:Hev.
  - by rewrite _send_self.
  - destruct c; try discriminate Hev. reflexivity.
Qed.

Lemma invoke_sock (c : hook_call) (env : Env) (st : State) :
  _sock (self (invoke float_repr c env st).2) = _sock (self st).
Proof. by rewrite invoke_self, hook_state_sock. Qed.

(** A hook leaves the wire as it is or puts one message after it. *)
Lemma invoke_wire (c : hook_call) (env : Env) (st : State) :
  wire (invoke float_repr c env st).2 = wire st \/
  exists (event_type : string) (data : pydict) (text : string) (sock : socket),
    hook_event float_repr c env (self st) = Some (event_type, data) /\
    _sock (self st) = Some sock /\
    sendall_error env = None /\
    json_dumps float_repr (envelope env event_type (Some data)) = Returns text /\
    wire (invoke float_repr c env st).2 = wire st ++ [text +:+ NEWLINE].
Proof.
  rewrite invoke_run.
  destruct (hook_event float_repr c env (self st)) as [[ty data]|] eqn:Hev;
    [|by left].
  rewrite _send_run. cbn [snd self wire]. rewrite hook_state_sock.
  destruct (_sock (self st)) as [sock|] eqn:Hsock; [|by left].
  destruct (json_dumps float_repr (envelope env ty (Some data))) as [text|e]
    eqn:Hdump; [|by left].
  destruct (sendall_error env) eqn:Herr; [by left|].
  right. by exists ty, data, text, sock.
Qed.

(** X1.  The plugin is connected exactly when the environment variable
    holds a non-empty path and connecting to it succeeds; in every other
    case it starts disabled.  It starts without start times. *)
Theorem init_connected_iff (environ : option string)
    (connect : string -> outcome socket) (sock : socket) :
  (_sock (__init__ environ connect) = Some sock <->
   exists path : string,
     environ = Some path /\ path <> "" /\ connect path = Returns sock) /\
  _start_time (__init__ environ connect) = None /\
  _play_start_time (__init__ environ connect) = None /\
  _task_start_times (__init__ environ connect) = ∅.
Proof.
  split; [|done]. unfold __init__. cbn [_sock]. split.
  - destruct environ as [path|]; [|done].
    destruct (String.eqb_spec path "") as [->|Hne]; [done|]. cbn [negb].
    destruct (connect path) as [s|e] eqn:Hc; [|done].
    intros H. injection H as <-. by exists path.
  - intros [path [-> [Hne Hc]]].
    destruct (String.eqb_spec path "") as [->|_]; [done|]. cbn [negb].
    by rewrite Hc.
Qed.

(** X2.  When the environment variable is missing or empty, or connecting
    raises, no run of hooks writes anything: the wire stays empty and the
    plugin stays disabled, whatever the data of the events. *)
Theorem disabled_plugin_silent (environ : option string)
    (connect : string -> outcome socket) (calls : list (hook_call * Env)) :
  environ = None \/ environ = Some "" \/
  (exists path e, environ = Some path /\ connect path = Raises e) ->
  let final :=
    run_hooks float_repr calls {| self := __init__ environ connect; wire := [] |} in
  wire final = [] /\ _sock (self final) = None.
Proof.
  intros Hdis.
  assert (Hnone : _sock (__init__ environ connect) = None).
  { unfold __init__. cbn [_sock].
    destruct Hdis as [->|[->|[path [e [-> Hc]]]]]; [done|done|].
    rewrite Hc. by destruct (negb (String.eqb path "")). }
  cbn zeta.
  generalize dependent (__init__ environ connect). intros s Hnone.
  assert (Hgen : forall st, _sock (self st) = None ->
            wire (run_hooks float_repr calls st) = wire st /\
            _sock (self (run_hooks float_repr calls st)) = None).
  { induction calls as [|[c env] calls IH]; intros st Hst; [done|].
    cbn [run_hooks].
    destruct (IH (invoke float_repr c env st).2) as [Hw Hs].
    { by rewrite invoke_sock. }
    split; [|exact Hs]. rewrite Hw.
    destruct (invoke_wire c env st) as [H|[ty [data [text [sock [_ [Hsock _]]]]]]];
      [exact H | congruence]. }
  apply (Hgen {| self := s; wire := [] |}). exact Hnone.
Qed.

(** X3.  Over any run of hooks the socket handle is the one the run started
    with (no reconnection, no disabling after a failure), the messages
    already written stay in place, and each hook adds at most one. *)
Theorem connection_kept_wire_grows (calls : list (hook_call * Env)) (st : State) :
  _sock (self (run_hooks float_repr calls st)) = _sock (self st) /\
  exists more : list string,
    wire (run_hooks float_repr calls st) = wire st ++ more /\
    (length more <= length calls)%nat.
Proof.
  revert st. induction calls as [|[c env] calls IH]; intros st.
  - split; [done|]. exists []. by rewrite app_nil_r.
  - cbn [run_hooks]. destruct (IH (invoke float_repr c env st).2)
      as [Hs [more [Hw Hlen]]].
    split; [by rewrite Hs, invoke_sock|].
    destruct (invoke_wire c env st) as [H|[_ [_ [text [_ [_ [_ [_ [_ H]]]]]]]]];
      rewrite H in Hw.
    + exists more. split; [exact Hw|]. cbn [length]. lia.
    + exists ((text +:+ NEWLINE) :: more). rewrite <- app_assoc in Hw.
      split; [exact Hw|]. cbn [length]. lia.
Qed.

Lemma invoke_table (c : hook_call) (env : Env) (st : State) (uuid : string) :
  _task_start_times (self (invoke float_repr c env st).2) !! uuid =
  if starts_task uuid c then Some (time_time env)
  else _task_start_times (self st) !! uuid.
Proof.
  rewrite invoke_self.
  destruct c as [| |task ?|task| | | | |]; cbn [hook_state starts_task];
    try reflexivity; cbn [_task_start_times];
    (destruct (String.eqb_spec (task__uuid task) uuid) as [->|Hne];
     [apply lookup_insert_eq | by apply lookup_insert_ne]).
Qed.

(** X4.  The timing table after a hook: a task start hook, plain or
    handler, sets the entry of its task to the clock reading (replacing an
    earlier one); every other entry, and the whole table under any other
    hook, is as before.  No hook removes an entry. *)
Theorem timing_table_step (c : hook_call) (env : Env) (st : State)
    (uuid : string) :
  (_task_start_times (self (invoke float_repr c env st).2) !! uuid =
   if starts_task uuid c then Some (time_time env)
   else _task_start_times (self st) !! uuid) /\
  (is_Some (_task_start_times (self st) !! uuid) ->
   is_Some (_task_start_times (self (invoke float_repr c env st).2) !! uuid)).
Proof.
  split; [apply invoke_table|].
  rewrite invoke_table. by destruct (starts_task uuid c).
Qed.

Lemma start_times_step (c : hook_call) (env : Env) (st : State) :
  _start_time (self (invoke float_repr c env st).2) =
  if starts_playbook c then Some (time_time env) else _start_time (self st).
Proof. rewrite invoke_self. by destruct c. Qed.

End Runs.

(** ** Further properties: durations *)

Lemma Qnum_zero (q : Q) : Qnum q = 0 <-> (q == 0)%Q.
Proof. unfold Qeq. cbn [Qnum Qden]. lia. Qed.

Lemma Qred_num_zero (q : Q) : Qnum (Qred q) = 0 <-> (q == 0)%Q.
Proof. rewrite Qnum_zero. by rewrite Qred_correct. Qed.

Lemma float_sub_zero (a b : Q) : Qnum (float_sub a b) = 0 <-> (a == b)%Q.
Proof.
  unfold float_sub. rewrite Qred_num_zero. split; intros H.
  - apply Qplus_inj_r with (z := (- b)%Q).
    rewrite Qplus_opp_r. exact H.
  - rewrite H. apply Qplus_opp_r.
Qed.

Section Durations.

Variable float_repr : Q -> string.

Lemma run_table_kept (uuid : string) (calls : list (hook_call * Env))
    (st : State) :
  Forall (fun ce : hook_call * Env => starts_task uuid ce.1 = false) calls ->
  _task_start_times (self (run_hooks float_repr calls st)) !! uuid =
  _task_start_times (self st) !! uuid.
Proof.
  revert st. induction calls as [|[c env] calls IH]; intros st Hall; [done|].
  apply Forall_cons in Hall as [Hc Hall]. cbn [run_hooks fst] in *.
  by rewrite (IH _ Hall), invoke_table, Hc.
Qed.

Lemma run_start_time_kept (calls : list (hook_call * Env)) (st : State) :
  Forall (fun ce : hook_call * Env => starts_playbook ce.1 = false) calls ->
  _start_time (self (run_hooks float_repr calls st)) = _start_time (self st).
Proof.
  revert st. induction calls as [|[c env] calls IH]; intros st Hall; [done|].
  apply Forall_cons in Hall as [Hc Hall]. cbn [run_hooks fst] in *.
  by rewrite (IH _ Hall), start_times_step, Hc.
Qed.

(** X5.  After the start hook of a task at clock reading [t0], and any
    further hooks that do not start a task with the same identifier, the
    record of every result hook for that task at a different clock reading
    [t1] has the duration [round(t1 - t0, 2)]. *)
Theorem duration_of_started_task (st : State) (task : Task)
    (is_conditional : bool) (env0 env1 : Env) (calls : list (hook_call * Env))
    (host : Host) (res : pydict) (h : result_hook) :
  Forall (fun ce : hook_call * Env => starts_task (task__uuid task) ce.1 = false)
         calls ->
  ~ (time_time env1 == time_time env0)%Q ->
  let st1 :=
    run_hooks float_repr calls
      (invoke float_repr (playbook_on_task_start task is_conditional) env0 st).2 in
  let result := {| _host := host; _task := task; _result := res |} in
  dict_get (KStr "duration")
    (result_payload h (_host_result float_repr (self st1) env1 result) res)
  = Some (PFloat (FFinite (round2 (float_sub (time_time env1) (time_time env0))))).
Proof.
  intros Hcalls Hne st1 result.
  assert (Htab : _task_start_times (self st1) !! task__uuid task
                 = Some (time_time env0)).
  { unfold st1. rewrite (run_table_kept _ _ _ Hcalls), invoke_table.
    cbn [starts_task]. by rewrite String.eqb_refl. }
  apply result_payload_keeps; [rewrite !elem_of_cons; tauto|].
  unfold _host_result. cbn [_task result]. rewrite Htab.
  cbn [truthy dict_get py_round2].
  destruct (Z.eqb_spec (Qnum (float_sub (time_time env1) (time_time env0))) 0)
    as [Hz|_]; [|reflexivity].
  by apply float_sub_zero in Hz.
Qed.

(** X7.  After the playbook start hook at a clock reading [t0] other than
    zero, and any further hooks that are no playbook start, the statistics
    hook at clock reading [t1] sends playbook_complete with the duration
    [round(t1 - t0, 2)] (a float also when no time has passed). *)
Theorem stats_duration_after_start (st : State) (playbook : Playbook)
    (env0 env1 : Env) (calls : list (hook_call * Env)) (stats : AggregateStats) :
  Forall (fun ce : hook_call * Env => starts_playbook ce.1 = false) calls ->
  ~ (time_time env0 == 0)%Q ->
  let st1 :=
    run_hooks float_repr calls
      (invoke float_repr (playbook_on_start playbook) env0 st).2 in
  exists summary : pydict,
    hook_event float_repr (playbook_on_stats stats) env1 (self st1) =
    Some ("playbook_complete",
          [(KStr "stats", PDict summary);
           (KStr "duration",
            PFloat (FFinite (round2 (float_sub (time_time env1)
                                                (time_time env0)))))]) /\
    invoke float_repr (playbook_on_stats stats) env1 st1 =
    _send float_repr env1 "playbook_complete"
      (Some [(KStr "stats", PDict summary);
             (KStr "duration",
              PFloat (FFinite (round2 (float_sub (time_time env1)
                                                  (time_time env0)))))]) st1.
Proof.
  intros Hcalls Hne st1.
  assert (Hstart : _start_time (self st1) = Some (time_time env0)).
  { unfold st1. by rewrite (run_start_time_kept _ _ Hcalls), start_times_step. }
  assert (Htruthy : truthy (PFloat (FFinite (time_time env0))) = true).
  { cbn [truthy]. destruct (Z.eqb_spec (Qnum (time_time env0)) 0) as [Hz|_];
      [by apply Qnum_zero in Hz | reflexivity]. }
  eexists. split.
  - cbn [hook_event]. rewrite Hstart, Htruthy. reflexivity.
  - cbn [invoke]. unfold v2_playbook_on_stats, mbind, M_bind, get_self.
    rewrite Hstart, Htruthy. reflexivity.
Qed.

End Durations.

(** ** Further properties: the sanitizer as a whole *)

Lemma substring_app_exact (a b : string) :
  substring 0 (String.length a) (a +:+ b) = a.
Proof.
  induction a as [|c a IH].
  - by destruct b.
  - change (String c a +:+ b) with (String c (a +:+ b)).
    cbn [String.length substring]. by rewrite IH.
Qed.

Lemma py_slice_to_app_exact (n : Z) (a b : string) :
  py_len a = n -> py_slice_to n (a +:+ b) = a.
Proof.
  intros <-. unfold py_slice_to, py_len. rewrite Nat2Z.id.
  apply substring_app_exact.
Qed.

Lemma dict_setitem_fresh (d : pydict) (k : pykey) (v : pyval) :
  k ∉ dict_keys d -> dict_setitem d k v = d ++ [(k, v)].
Proof.
  unfold dict_keys. induction d as [|[k0 v0] d IH]; [done|].
  cbn [map fst dict_setitem app]. rewrite not_elem_of_cons. intros [Hne Hd].
  rewrite decide_False by congruence. by rewrite IH.
Qed.

Section SanitizerWhole.

Variable float_repr : Q -> string.

Lemma sanitized_items_keys (items : pydict) :
  dict_keys (sanitized_items float_repr items) =
  filter (fun k => k ∉ omit_keys) (dict_keys items).
Proof.
  unfold dict_keys. induction items as [|[k v] items IH]; [done|].
  cbn [sanitized_items map fst]. rewrite filter_cons.
  case_bool_decide as Hom.
  - rewrite decide_False by tauto. exact IH.
  - rewrite decide_True by done. cbn [map fst]. by rewrite IH.
Qed.

Lemma sanitize_fold_items (items : pydict) :
  forall acc : pydict,
    NoDup (dict_keys items) ->
    (forall k, k ∈ dict_keys items -> k ∉ dict_keys acc) ->
    fold_left (sanitize_item float_repr) items acc =
    acc ++ sanitized_items float_repr items.
Proof.
  induction items as [|[k v] items IH]; intros acc Hnd Hfresh.
  - cbn. by rewrite app_nil_r.
  - unfold dict_keys in Hnd, Hfresh. cbn [map fst] in Hnd, Hfresh.
    apply NoDup_cons in Hnd as [Hk Hnd].
    cbn [fold_left sanitized_items]. rewrite sanitize_item_eq.
    case_bool_decide as Hom.
    + apply IH; [exact Hnd|]. intros k' Hk'. apply Hfresh. by right.
    + rewrite dict_setitem_fresh by (apply Hfresh; by left).
      rewrite IH; [by rewrite <- app_assoc | exact Hnd |].
      intros k' Hk'. unfold dict_keys. rewrite map_app. cbn [map fst].
      rewrite elem_of_app, list_elem_of_singleton. intros [Hin| ->].
      * revert Hin. apply Hfresh. by right.
      * done.
Qed.

Lemma sanitized_value_idem (value : pyval) :
  sanitized_value float_repr (sanitized_value float_repr value) =
  sanitized_value float_repr value.
Proof.
  unfold sanitized_value at 2 3.
  destruct (long_string value) eqn:Hlong.
  - destruct value as [| | | |s| | |]; try discriminate Hlong.
    cbn [long_string isinstance_str str_value andb] in Hlong.
    apply Z.ltb_lt in Hlong.
    destruct (py_slice_to_split 5000 s) as [rest [_ Hhead]]; [lia|].
    unfold sanitized_value, long_string.
    cbn [isinstance_str str_value andb].
    rewrite py_len_app, Hhead, truncation_marker_len.
    cbn [Z.ltb Z.add Z.compare Pos.add Pos.compare Pos.compare_cont Pos.succ].
    change (5000 <? 5000 + 16) with true. cbn iota.
    by rewrite (py_slice_to_app_exact 5000 _ _ Hhead).
  - destruct (large_structure float_repr value) eqn:Hlarge.
    + reflexivity.
    + unfold sanitized_value. by rewrite Hlong, Hlarge.
Qed.

Lemma sanitized_items_idem (items : pydict) :
  sanitized_items float_repr (sanitized_items float_repr items) =
  sanitized_items float_repr items.
Proof.
  induction items as [|[k v] items IH]; [done|].
  cbn [sanitized_items]. case_bool_decide as Hom; [exact IH|].
  cbn [sanitized_items]. rewrite bool_decide_eq_false_2 by done.
  by rewrite sanitized_value_idem, IH.
Qed.

Lemma sanitize_result_items (items : pydict) :
  NoDup (dict_keys items) ->
  _sanitize_result float_repr (PDict items) =
  PDict (sanitized_items float_repr items).
Proof.
  intros Hnd. cbn [_sanitize_result]. f_equal.
  rewrite sanitize_fold_items; [done | exact Hnd |].
  intros k _. apply not_elem_of_nil.
Qed.

Lemma sanitized_items_NoDup (items : pydict) :
  NoDup (dict_keys items) -> NoDup (dict_keys (sanitized_items float_repr items)).
Proof. intros Hnd. rewrite sanitized_items_keys. by apply NoDup_filter. Qed.

(** X8.  On a mapping the sanitizer is a filter and a map that keep the
    order: the entries under the two omitted keys go, every other entry
    stays where it was with its value sanitized on its own, and no key is
    added or repeated. *)
Theorem sanitize_keeps_order (items : pydict) :
  NoDup (dict_keys items) ->
  _sanitize_result float_repr (PDict items) =
    PDict (sanitized_items float_repr items) /\
  dict_keys (sanitized_items float_repr items) =
    filter (fun k => k ∉ omit_keys) (dict_keys items) /\
  NoDup (dict_keys (sanitized_items float_repr items)).
Proof.
  intros Hnd. split; [by apply sanitize_result_items|].
  split; [apply sanitized_items_keys | by apply sanitized_items_NoDup].
Qed.

(** X9.  Every value of a sanitized mapping is bounded: a string has at
    most 5016 characters, and the text of a mapping or a sequence has at
    most 10000. *)
Theorem sanitized_values_bounded (items : pydict) (key : pykey) (value : pyval) :
  NoDup (dict_keys items) ->
  dict_get key (fold_left (sanitize_item float_repr) items []) = Some value ->
  (forall s, value = PStr s -> py_len s <= 5016) /\
  (isinstance_dict value || isinstance_list value = true ->
   py_len (py_str float_repr value) <= 10000).
Proof.
  intros Hnd Hget. rewrite sanitize_get in Hget by done.
  destruct (dict_get key items) as [v|]; [|done].
  destruct (bool_decide (key ∈ omit_keys)); [done|].
  injection Hget as <-. unfold sanitized_value.
  destruct (long_string v) eqn:Hlong.
  - destruct v as [| | | |s0| | |]; try discriminate Hlong.
    cbn [long_string isinstance_str str_value andb] in Hlong.
    apply Z.ltb_lt in Hlong.
    destruct (py_slice_to_split 5000 s0) as [rest [_ Hhead]]; [lia|].
    split; [|done]. intros s Hs. injection Hs as <-.
    cbn [str_value]. rewrite py_len_app, Hhead, truncation_marker_len. lia.
  - destruct (large_structure float_repr v) eqn:Hlarge.
    + split; [|done]. intros s Hs. injection Hs as <-. by vm_compute.
    + split.
      * intros s ->. cbn [long_string isinstance_str str_value andb] in Hlong.
        apply Z.ltb_ge in Hlong. lia.
      * intros Hst. unfold large_structure in Hlarge. rewrite Hst in Hlarge.
        cbn [andb] in Hlarge. by apply Z.ltb_ge in Hlarge.
Qed.

(** X10.  Sanitizing twice is sanitizing once: a truncated string, the
    omission marker and every value that was kept pass a second time
    unchanged. *)
Theorem sanitize_idempotent (result : pyval) :
  (forall items, result = PDict items -> NoDup (dict_keys items)) ->
  _sanitize_result float_repr (_sanitize_result float_repr result) =
  _sanitize_result float_repr result.
Proof.
  intros Hdict. destruct result as [| | | | | |items|]; try reflexivity.
  pose proof (Hdict items eq_refl) as Hnd.
  rewrite (sanitize_result_items items Hnd).
  rewrite (sanitize_result_items _ (sanitized_items_NoDup items Hnd)).
  by rewrite sanitized_items_idem.
Qed.

End SanitizerWhole.

(** ** Further properties: payloads *)

(** X11.  [os.path.basename]: the path is a directory part, empty or ending
    in a slash, followed by the base name, which holds no slash. *)
Theorem basename_splits (p : string) :
  exists dir : string,
    p = dir +:+ basename p /\
    contains "/" (basename p) = false /\
    (dir = "" \/ exists d, dir = d +:+ "/").
Proof.
  induction p as [|c rest IH]; [by exists ""; auto|].
  cbn [basename]. destruct (contains "/" (String c rest)) eqn:Hc.
  - destruct IH as [dir [Hrest [Hbase Hdir]]].
    exists (String c dir). split.
    { change (String c dir +:+ basename rest)
        with (String c (dir +:+ basename rest)). by rewrite <- Hrest. }
    split; [exact Hbase|]. right.
    destruct Hdir as [->|[d ->]].
    + change ("" +:+ basename rest) with (basename rest) in Hrest.
      rewrite <- Hrest in Hbase. cbn [contains] in Hc.
      rewrite Hbase in Hc. destruct (Ascii.eqb_spec c "/") as [->|_]; [|done].
      by exists "".
    + by exists (String c d).
  - exists "". split; [done|]. split; [exact Hc | by left].
Qed.

Section Payloads.

Variable float_repr : Q -> string.

(** X12.  The diff hook sends nothing and changes nothing when the result
    has no diff or an empty one; otherwise it sends file_diff with the host,
    the task and the diff as it is in the result, not sanitized. *)
Theorem file_diff_only_with_diff (env : Env) (result : TaskResult) (st : State) :
  (dict_get (KStr "diff") (_result result) = None ->
   invoke float_repr (on_file_diff result) env st = (Returns tt, st)) /\
  (forall diff, dict_get (KStr "diff") (_result result) = Some diff ->
                truthy diff = false ->
                invoke float_repr (on_file_diff result) env st = (Returns tt, st)) /\
  (forall diff, dict_get (KStr "diff") (_result result) = Some diff ->
                truthy diff = true ->
                invoke float_repr (on_file_diff result) env st =
                _send float_repr env "file_diff"
                  (Some [(KStr "host", PStr (host_get_name (_host result)));
                         (KStr "task", PStr (task_get_name (_task result)));
                         (KStr "diff", diff)]) st).
Proof.
  cbn [invoke]. unfold v2_on_file_diff, dict_get_default.
  split; [by intros ->|]. split; intros diff -> Ht; by rewrite Ht.
Qed.

Lemma summary_fold (stats : AggregateStats) (hosts : list string) :
  forall acc : pydict,
    NoDup hosts ->
    (forall host, host ∈ hosts -> KStr host ∉ dict_keys acc) ->
    fold_left (fun summary host =>
                 dict_setitem summary (KStr host)
                   (host_summary (summarize stats host))) hosts acc =
    acc ++ map (fun host => (KStr host, host_summary (summarize stats host)))
               hosts.
Proof.
  induction hosts as [|h hosts IH]; intros acc Hnd Hfresh.
  - cbn. by rewrite app_nil_r.
  - apply NoDup_cons in Hnd as [Hh Hnd]. cbn [fold_left map].
    rewrite dict_setitem_fresh by (apply Hfresh; by left).
    rewrite IH; [by rewrite <- app_assoc | exact Hnd |].
    intros h' Hh'. unfold dict_keys. rewrite map_app. cbn [map fst].
    rewrite elem_of_app, list_elem_of_singleton. intros [Hin|Heq].
    + revert Hin. apply Hfresh. by right.
    + injection Heq as ->. done.
Qed.

(** X13.  The summary of the statistics hook has one entry for each
    processed host, in their order; each entry has the seven counters, a
    counter missing from the statistics of the host counting as 0. *)
Theorem stats_summary_per_host (env : Env) (stats : AggregateStats)
    (s : CallbackModule) :
  NoDup (processed stats) ->
  exists duration : pyval,
    hook_event float_repr (playbook_on_stats stats) env s =
    Some ("playbook_complete",
          [(KStr "stats",
            PDict (map (fun host =>
                          (KStr host, host_summary (summarize stats host)))
                       (processed stats)));
           (KStr "duration", duration)]) /\
    forall host_stats : pydict,
      exists counters : pydict,
        host_summary host_stats = PDict counters /\
        dict_keys counters =
          [KStr "ok"; KStr "changed"; KStr "failures"; KStr "unreachable";
           KStr "skipped"; KStr "rescued"; KStr "ignored"] /\
        forall name : string,
          KStr name ∈ dict_keys counters ->
          dict_get (KStr name) counters =
          Some (dict_get_default (KStr name) (PInt 0) host_stats).
Proof.
  intros Hnd. eexists. split.
  - cbn [hook_event]. rewrite summary_fold; [reflexivity | exact Hnd |].
    intros host _. apply not_elem_of_nil.
  - intros host_stats. eexists. split; [reflexivity|]. split; [reflexivity|].
    intros name. cbn [dict_keys map fst]. rewrite !elem_of_cons, elem_of_nil.
    intros H.
    repeat (destruct H as [H|H]; [injection H as ->; reflexivity|]). done.
Qed.

(** X14.  Keys missing from the raw result fall back to defaults in the
    payloads: changed is False, the loop item is the empty string, its label
    is 'item', the retry and attempt counts are 0. *)
Theorem missing_keys_default (s : CallbackModule) (env : Env)
    (result : TaskResult) :
  let base := _host_result float_repr s env result in
  let res := _result result in
  (dict_get (KStr "changed") res = None ->
   forall h, dict_get (KStr "changed") (result_payload h base res)
             = Some (PBool false)) /\
  (dict_get (KStr "item") res = None ->
   forall h, h = runner_item_on_ok \/ h = runner_item_on_failed
             \/ h = runner_item_on_skipped ->
             dict_get (KStr "item") (result_payload h base res)
             = Some (PStr "")) /\
  (dict_get (KStr "ansible_loop_var") res = None ->
   dict_get (KStr "item_label") (result_payload runner_item_on_ok base res)
   = Some (PStr "item")) /\
  (dict_get (KStr "retries") res = None ->
   dict_get (KStr "retries") (result_payload runner_retry base res)
   = Some (PInt 0)) /\
  (dict_get (KStr "attempts") res = None ->
   dict_get (KStr "attempts") (result_payload runner_retry base res)
   = Some (PInt 0)).
Proof.
  intros base res. subst base res. repeat split.
  - intros Hnone h. apply result_payload_keeps; [rewrite !elem_of_cons; tauto|].
    unfold _host_result, dict_get_default. by rewrite Hnone.
  - intros Hnone h [->|[->| ->]]; cbn [result_payload];
      rewrite ?dict_get_setitem_ne by discriminate;
      rewrite dict_get_setitem_eq; unfold dict_get_default; by rewrite Hnone.
  - intros Hnone. cbn [result_payload].
    rewrite dict_get_setitem_eq. unfold dict_get_default. by rewrite Hnone.
  - intros Hnone. cbn [result_payload].
    rewrite dict_get_setitem_ne by discriminate.
    rewrite dict_get_setitem_eq. unfold dict_get_default. by rewrite Hnone.
  - intros Hnone. cbn [result_payload].
    rewrite dict_get_setitem_eq. unfold dict_get_default. by rewrite Hnone.
Qed.

End Payloads.

(** ** Further properties: the bytes on the wire *)

Lemma json_char_ascii (c : ascii) :
  all_chars is_printable_ascii (json_char c) = true.
Proof. by destruct c as [[] [] [] [] [] [] [] []]. Qed.

Lemma number_char_ascii (c : ascii) :
  is_number_char c = true -> is_printable_ascii c = true.
Proof. by destruct c as [[] [] [] [] [] [] [] []]. Qed.

Lemma json_chars_ascii (s : string) :
  all_chars is_printable_ascii (json_chars s) = true.
Proof.
  induction s as [|c s IH]; [reflexivity|].
  cbn [json_chars]. by rewrite all_chars_app, json_char_ascii, IH.
Qed.

Lemma json_string_ascii (s : string) :
  all_chars is_printable_ascii (json_string s) = true.
Proof.
  unfold json_string. cbn [all_chars].
  by rewrite all_chars_app, json_chars_ascii.
Qed.

Lemma json_number_ascii (s : string) :
  json_number s -> all_chars is_printable_ascii s = true.
Proof.
  intros H. apply (all_chars_impl is_number_char); [apply number_char_ascii|].
  by apply json_number_chars.
Qed.

Lemma join_ascii (parts : list string) :
  Forall (fun t => all_chars is_printable_ascii t = true) parts ->
  all_chars is_printable_ascii (join ", " parts) = true.
Proof.
  induction 1 as [|t parts Ht _ IH]; [reflexivity|].
  destruct parts as [|t' parts]; [exact Ht|].
  change (join ", " (t :: t' :: parts))
    with (t +:+ ", " +:+ join ", " (t' :: parts)).
  by rewrite !all_chars_app, Ht, IH.
Qed.

Lemma ascii_no_newline (s : string) :
  all_chars is_printable_ascii s = true -> contains LF s = false.
Proof. by apply all_chars_not_contains. Qed.

Lemma ascii_line_is_line (m : string) : is_ascii_line m -> is_line m.
Proof.
  intros [text [-> Hascii]]. exists text. split; [done|].
  by apply ascii_no_newline.
Qed.

Section Wire.

Variable float_repr : Q -> string.

Hypothesis float_repr_number : forall q, json_number (float_repr q).

Lemma json_encode_ascii (v : pyval) :
  forall t, json_encode float_repr v = Returns t ->
            all_chars is_printable_ascii t = true.
Proof.
  induction v as [|b|z|f|s|items IH|items IH|o] using pyval_nested_ind;
    intros t Ht; cbn [json_encode] in Ht.
  - by injection Ht as <-.
  - destruct b; by injection Ht as <-.
  - injection Ht as <-. apply json_number_ascii, int_str_number.
  - injection Ht as <-. destruct f as [q| |[]]; try reflexivity.
    apply json_number_ascii, float_repr_number.
  - injection Ht as <-. apply json_string_ascii.
  - destruct (sequence (map (json_encode float_repr) items)) as [parts|e] eqn:Hseq;
      [|done].
    injection Ht as <-. unfold json_array.
    rewrite !all_chars_app, join_ascii; [reflexivity|].
    apply (sequence_map_Forall (json_encode float_repr) (fun _ => True)
             (fun t => all_chars is_printable_ascii t = true) items);
      [| |exact Hseq].
    + eapply Forall_impl; [exact IH|]. intros x Hx _. exact Hx.
    + by apply Forall_true.
  - match type of Ht with
    | match sequence (map ?f items) with _ => _ end = _ =>
        destruct (sequence (map f items)) as [parts|e] eqn:Hseq; [|done];
        pose proof (sequence_map_Forall f (fun _ => True)
                      (fun t => all_chars is_printable_ascii t = true) items)
          as Hall
    end.
    injection Ht as <-. unfold json_object.
    rewrite !all_chars_app, join_ascii; [reflexivity|].
    apply Hall; [| by apply Forall_true | exact Hseq].
    eapply Forall_impl; [exact IH|]. intros [k x] Hx _ part. cbn [snd] in Hx.
    destruct (json_key float_repr k) as [ks|e] eqn:Hk; [|done].
    destruct (json_encode float_repr x) as [tx|e] eqn:Hex; [|done].
    intros H. injection H as <-.
    rewrite !all_chars_app, (Hx _ eq_refl).
    destruct (json_key_string float_repr _ _ Hk) as [s ->].
    by rewrite json_string_ascii.
  - injection Ht as <-. apply json_string_ascii.
Qed.

Lemma invoke_ascii_lines (c : hook_call) (env : Env) (st : State) :
  Forall is_ascii_line (wire st) ->
  Forall is_ascii_line (wire (invoke float_repr c env st).2).
Proof.
  intros Hst.
  destruct (invoke_wire float_repr c env st)
    as [->|[ty [data [text [sock [_ [_ [_ [Hdump ->]]]]]]]]]; [exact Hst|].
  apply Forall_app. split; [exact Hst|]. apply Forall_singleton.
  exists text. split; [reflexivity|].
  apply (json_encode_ascii (envelope env ty (Some data))). exact Hdump.
Qed.

(** X15.  Framing and encoding over a run in which every write to the
    socket completes: when the messages on the stream are lines of printable
    ASCII, each closed by its one line feed, they still are after the run.
    A message never holds a second line feed, and encoding it as UTF-8
    changes no byte.  Nothing is said of a run in which a write fails, which
    may leave a part of a line on the stream. *)
Theorem wire_messages_are_ascii_lines (calls : list (hook_call * Env))
    (st : State) :
  Forall (fun ce : hook_call * Env => sendall_error ce.2 = None) calls ->
  Forall is_ascii_line (wire st) ->
  Forall is_ascii_line (wire (run_hooks float_repr calls st)) /\
  Forall is_line (wire (run_hooks float_repr calls st)).
Proof.
  intros _ Hst.
  assert (Hascii : Forall is_ascii_line (wire (run_hooks float_repr calls st))).
  { revert st Hst. induction calls as [|[c env] calls IH]; intros st Hst;
      [exact Hst|].
    cbn [run_hooks]. apply IH. by apply invoke_ascii_lines. }
  split; [exact Hascii|].
  eapply Forall_impl; [exact Hascii | apply ascii_line_is_line].
Qed.

End Wire.

(** ** Further properties: what the sanitizer does not reach *)

Section Unsanitized.

Variable float_repr : Q -> string.

(** X16.  Only the copy of the raw result under the key result is
    sanitized.  In an item event whose loop item is a string of more than
    5000 characters, the field item carries the whole string, while the item
    inside result is truncated. *)
Theorem item_field_not_sanitized (s : CallbackModule) (env : Env)
    (result : TaskResult) (text : string) (h : result_hook) :
  NoDup (dict_keys (_result result)) ->
  dict_get (KStr "item") (_result result) = Some (PStr text) ->
  5000 < py_len text ->
  h = runner_item_on_ok \/ h = runner_item_on_failed
  \/ h = runner_item_on_skipped ->
  let data :=
    result_payload h (_host_result float_repr s env result) (_result result) in
  dict_get (KStr "item") data = Some (PStr text) /\
  exists out : pydict,
    dict_get (KStr "result") data = Some (PDict out) /\
    dict_get (KStr "item") out =
    Some (PStr (py_slice_to 5000 text +:+ truncation_marker)).
Proof.
  intros Hnd Hitem Hlen Hh data. subst data. split.
  - destruct Hh as [->|[->| ->]]; cbn [result_payload];
      rewrite ?dict_get_setitem_ne by discriminate;
      rewrite dict_get_setitem_eq; unfold dict_get_default; by rewrite Hitem.
  - exists (fold_left (sanitize_item float_repr) (_result result) []).
    split.
    + by apply result_payload_keeps; [rewrite !elem_of_cons; tauto|].
    + rewrite sanitize_get, Hitem by done.
      rewrite bool_decide_eq_false_2
        by (rewrite omit_keys_spec; intros [?|?]; discriminate).
      unfold sanitized_value, long_string.
      cbn [isinstance_str str_value andb].
      by rewrite (proj2 (Z.ltb_lt _ _) Hlen).
Qed.

End Unsanitized.

(** ** The further properties on concrete inputs *)

Lemma disabled_plugin_silent_witness :
  (@None string = None \/ @None string = Some "" \/
   exists path e, @None string = Some path /\
                  (fun p : string => Returns {| peer := p |}) path = Raises e) /\
  wire (run_hooks Sample.float_repr Sample.run1
          {| self := __init__ None (fun p => Returns {| peer := p |});
             wire := [] |}) = [] /\
  _sock (self (run_hooks Sample.float_repr Sample.run1
                 {| self := __init__ None (fun p => Returns {| peer := p |});
                    wire := [] |})) = None.
Proof.
  assert (H : @None string = None \/ @None string = Some "" \/
              exists path e, @None string = Some path /\
                (fun p : string => Returns {| peer := p |}) path = Raises e)
    by (by left).
  split; [exact H|].
  exact (disabled_plugin_silent Sample.float_repr None
           (fun p => Returns {| peer := p |}) Sample.run1 H).
Defined.

Lemma duration_of_started_task_witness :
  Forall (fun ce : hook_call * Env =>
            starts_task (task__uuid Sample.task_abc) ce.1 = false) Sample.run2 /\
  ~ (10234 # 100 == 100)%Q /\
  dict_get (KStr "duration")
    (result_payload runner_on_ok
       (_host_result Sample.float_repr
          (self (run_hooks Sample.float_repr Sample.run2
                   (invoke Sample.float_repr
                      (playbook_on_task_start Sample.task_abc false)
                      (Sample.env_at 100 None)
                      (Sample.fresh Sample.connected)).2))
          (Sample.env_at (10234 # 100) None) Sample.result_ok)
       (_result Sample.result_ok))
  = Some (PFloat (FFinite (117 # 50))).
Proof.
  assert (Hcalls : Forall (fun ce : hook_call * Env =>
            starts_task (task__uuid Sample.task_abc) ce.1 = false) Sample.run2)
    by (repeat constructor).
  assert (Hne : ~ (10234 # 100 == 100)%Q) by (intros H; discriminate H).
  split; [exact Hcalls|]. split; [exact Hne|].
  exact (duration_of_started_task Sample.float_repr
           (Sample.fresh Sample.connected) Sample.task_abc false
           (Sample.env_at 100 None) (Sample.env_at (10234 # 100) None)
           Sample.run2 Sample.host1 (_result Sample.result_ok) runner_on_ok
           Hcalls Hne).
Defined.

Lemma stats_duration_after_start_witness :
  Forall (fun ce : hook_call * Env => starts_playbook ce.1 = false) Sample.run2 /\
  ~ (90 == 0)%Q /\
  exists summary : pydict,
    hook_event Sample.float_repr (playbook_on_stats Sample.stats1)
      (Sample.env_at (9525 # 100) None)
      (self (run_hooks Sample.float_repr Sample.run2
               (invoke Sample.float_repr (playbook_on_start Sample.playbook1)
                  (Sample.env_at 90 None) (Sample.fresh Sample.connected)).2))
    = Some ("playbook_complete",
            [(KStr "stats", PDict summary);
             (KStr "duration", PFloat (FFinite (21 # 4)))]).
Proof.
  assert (Hcalls : Forall (fun ce : hook_call * Env =>
                             starts_playbook ce.1 = false) Sample.run2)
    by (repeat constructor).
  assert (Hne : ~ (90 == 0)%Q) by (intros H; discriminate H).
  split; [exact Hcalls|]. split; [exact Hne|].
  destruct (stats_duration_after_start Sample.float_repr
              (Sample.fresh Sample.connected) Sample.playbook1
              (Sample.env_at 90 None) (Sample.env_at (9525 # 100) None)
              Sample.run2 Sample.stats1 Hcalls Hne) as [summary [Hev _]].
  exists summary. exact Hev.
Defined.

Lemma sanitize_keeps_order_witness :
  NoDup (dict_keys Sample.result_with_facts) /\
  _sanitize_result Sample.float_repr (PDict Sample.result_with_facts)
    = PDict [(KStr "msg", PStr "ok")].
Proof.
  assert (Hnd : NoDup (dict_keys Sample.result_with_facts))
    by (apply (bool_decide_unpack _); vm_compute; exact I).
  split; [exact Hnd|].
  destruct (sanitize_keeps_order Sample.float_repr Sample.result_with_facts Hnd)
    as [Hs _].
  rewrite Hs. reflexivity.
Defined.

Lemma sanitized_values_bounded_witness :
  NoDup (dict_keys Sample.result_with_long_stdout) /\
  dict_get (KStr "stdout")
    (fold_left (sanitize_item Sample.float_repr) Sample.result_with_long_stdout [])
    = Some (PStr (py_slice_to 5000 Sample.text6000 +:+ truncation_marker)) /\
  py_len (py_slice_to 5000 Sample.text6000 +:+ truncation_marker) <= 5016.
Proof.
  assert (Hnd : NoDup (dict_keys Sample.result_with_long_stdout))
    by (apply (bool_decide_unpack _); vm_compute; exact I).
  assert (Hget : dict_get (KStr "stdout")
            (fold_left (sanitize_item Sample.float_repr)
               Sample.result_with_long_stdout [])
          = Some (PStr (py_slice_to 5000 Sample.text6000 +:+ truncation_marker)))
    by (vm_compute; reflexivity).
  split; [exact Hnd|]. split; [exact Hget|].
  destruct (sanitized_values_bounded Sample.float_repr
              Sample.result_with_long_stdout (KStr "stdout") _ Hnd Hget)
    as [Hstr _].
  by apply Hstr.
Defined.

Lemma sanitize_idempotent_witness :
  (forall items, PDict Sample.result_with_long_stdout = PDict items ->
                 NoDup (dict_keys items)) /\
  _sanitize_result Sample.float_repr
    (_sanitize_result Sample.float_repr (PDict Sample.result_with_long_stdout))
  = _sanitize_result Sample.float_repr (PDict Sample.result_with_long_stdout).
Proof.
  assert (H : forall items, PDict Sample.result_with_long_stdout = PDict items ->
                            NoDup (dict_keys items)).
  { intros items Heq. injection Heq as <-.
    apply (bool_decide_unpack _). vm_compute. exact I. }
  split; [exact H|].
  exact (sanitize_idempotent Sample.float_repr
           (PDict Sample.result_with_long_stdout) H).
Defined.

Lemma stats_summary_per_host_witness :
  NoDup (processed Sample.stats1) /\
  exists duration : pyval,
    hook_event Sample.float_repr (playbook_on_stats Sample.stats1)
      (Sample.env_at 100 None) Sample.connected
    = Some ("playbook_complete",
            [(KStr "stats",
              PDict [(KStr "web1",
                      PDict [(KStr "ok", PInt 3); (KStr "changed", PInt 1);
                             (KStr "failures", PInt 0);
                             (KStr "unreachable", PInt 0);
                             (KStr "skipped", PInt 0); (KStr "rescued", PInt 0);
                             (KStr "ignored", PInt 0)])]);
             (KStr "duration", duration)]).
Proof.
  assert (Hnd : NoDup (processed Sample.stats1))
    by (apply (bool_decide_unpack _); vm_compute; exact I).
  split; [exact Hnd|].
  destruct (stats_summary_per_host Sample.float_repr (Sample.env_at 100 None)
              Sample.stats1 Sample.connected Hnd) as [duration [Hev _]].
  exists duration. exact Hev.
Defined.

Lemma wire_messages_are_ascii_lines_witness :
  (forall q, json_number (Sample.float_repr q)) /\
  Forall (fun ce : hook_call * Env => sendall_error ce.2 = None) Sample.run1 /\
  Forall is_ascii_line (wire (Sample.fresh Sample.connected)) /\
  length (wire (run_hooks Sample.float_repr Sample.run1
                  (Sample.fresh Sample.connected))) = 4%nat /\
  Forall is_ascii_line
    (wire (run_hooks Sample.float_repr Sample.run1
             (Sample.fresh Sample.connected))) /\
  Forall is_line
    (wire (run_hooks Sample.float_repr Sample.run1
             (Sample.fresh Sample.connected))).
Proof.
  assert (Hst : Forall is_ascii_line (wire (Sample.fresh Sample.connected)))
    by constructor.
  assert (Hok : Forall (fun ce : hook_call * Env => sendall_error ce.2 = None)
                  Sample.run1)
    by (repeat constructor).
  split; [exact sample_float_repr_number|]. split; [exact Hok|].
  split; [exact Hst|]. split; [reflexivity|].
  exact (wire_messages_are_ascii_lines Sample.float_repr
           sample_float_repr_number Sample.run1
           (Sample.fresh Sample.connected) Hok Hst).
Defined.

Lemma item_field_not_sanitized_witness :
  NoDup (dict_keys (_result Sample.result_long_item)) /\
  dict_get (KStr "item") (_result Sample.result_long_item)
    = Some (PStr Sample.text6000) /\
  5000 < py_len Sample.text6000 /\
  dict_get (KStr "item")
    (result_payload runner_item_on_failed
       (_host_result Sample.float_repr Sample.connected
          (Sample.env_at 100 None) Sample.result_long_item)
       (_result Sample.result_long_item))
  = Some (PStr Sample.text6000).
Proof.
  assert (Hnd : NoDup (dict_keys (_result Sample.result_long_item)))
    by (apply (bool_decide_unpack _); vm_compute; exact I).
  assert (Hlen : 5000 < py_len Sample.text6000) by (vm_compute; reflexivity).
  split; [exact Hnd|]. split; [reflexivity|]. split; [exact Hlen|].
  destruct (item_field_not_sanitized Sample.float_repr Sample.connected
              (Sample.env_at 100 None) Sample.result_long_item
              Sample.text6000 runner_item_on_failed Hnd eq_refl Hlen
              (or_intror (or_introl eq_refl))) as [Hitem _].
  exact Hitem.
Defined.
